(** * geeksenergy-app: the account routes and the OTP password-reset flow

    A shallow embedding of [src/routes/user.routes.js] and
    [src/models/user.model.js].  The Express handlers become functions from
    a request and the server state (the [users] collection and the
    module-level [otpStore] object) to a response and a new state.  What a
    handler obtains from outside the program (the [Math.random()] draw, the
    bcrypt salt, the outcome of [transporter.sendMail], the clock, the
    ObjectId the driver generates) is an explicit input, [env].

    What the model takes for granted:
    - a string is a sequence of code units, one [ascii] each, and its
      [length] is the JavaScript one;
    - MongoDB answers every query; the [catch] branches that only an
      unavailable database reaches are left out, those a unique index, a
      validator or an id that is not an ObjectId reaches are kept;
    - a handler runs to completion before the next request is served: the
      interleavings at its [await]s are not modelled;
    - Mongoose, bcrypt and express-validator are libraries, not code of
      this repository.  Their functions on strings are parameters of the
      development; the operations of the model [User] follow the schema
      of user.model.js and Mongoose's documented behaviour (setters run
      on documents, updates and filters; validators on [create] only;
      [timestamps] maintained on every write). *)

From Stdlib Require Import ZArith Lia String Ascii List Bool SpecFloat.
From stdpp Require Import gmap strings list.

Local Open Scope Z_scope.

(** ** IEEE-754 binary64 arithmetic, as far as line 203 needs it

    [Math.floor(100000 + Math.random() * 900000).toString()] multiplies and
    adds doubles.  Every value on that line is finite and non-negative, so a
    double is the pair [(m, e)] standing for [m * 2^e]; results are rounded
    to 53 significant bits, to nearest, ties to even. *)
Module Double.

Record t : Set := mk { mant : Z; expo : Z }.

(** A finite non-negative double: at most 53 bits of mantissa, exponent
    not below that of the smallest subnormal. *)
Definition representable (d : t) : Prop :=
  0 <= mant d < 2 ^ 53 /\ -1074 <= expo d.

(** [n / 2^k] rounded to the nearest integer, ties to the even one. *)
Definition rne_shift (n k : Z) : Z :=
  let q := n / 2 ^ k in
  let r := n mod 2 ^ k in
  let h := 2 ^ (k - 1) in
  if r <? h then q
  else if h <? r then q + 1
  else if Z.even q then q else q + 1.

(** Rounding of the exact value [n * 2^e] (with [-1074 <= e]). *)
Definition round (n e : Z) : t :=
  let k := Z.log2 n - 52 in
  if k <=? 0 then mk n e else mk (rne_shift n k) (e + k).

Definition mul (x y : t) : t :=
  round (mant x * mant y) (expo x + expo y).

Definition add (x y : t) : t :=
  let e := Z.min (expo x) (expo y) in
  round (mant x * 2 ^ (expo x - e) + mant y * 2 ^ (expo y - e)) e.

(** [Math.floor], as the integer it denotes. *)
Definition floor (x : t) : Z :=
  if 0 <=? expo x then mant x * 2 ^ expo x else mant x / 2 ^ (- expo x).

(** An integer literal below 2^53. *)
Definition of_Z (n : Z) : t := mk n 0.

(** What [Math.random()] may return: a double [d] with [0 <= d < 1]. *)
Definition unit_range (d : t) : Prop :=
  representable d /\ (mant d = 0 \/ (expo d < 0 /\ mant d < 2 ^ (- expo d))).

Definition unit_rangeb (d : t) : bool :=
  (0 <=? mant d) && (mant d <? 2 ^ 53) && (-1074 <=? expo d)
  && ((mant d =? 0) || ((expo d <? 0) && (mant d <? 2 ^ (- expo d)))).

End Double.

(** The same line computed with the Standard Library's specification of
    binary64 ([SpecFloat], precision 53, [emax] 1024), to compare the two
    on examples. *)
Definition to_spec (d : Double.t) : spec_float :=
  match Double.mant d with
  | Zpos p => S754_finite false p (Double.expo d)
  | _ => S754_zero false
  end.

Definition same_value (d : Double.t) (f : spec_float) : bool :=
  match f with
  | S754_zero _ => Double.mant d =? 0
  | S754_finite false p e =>
      let m := Z.min e (Double.expo d) in
      Double.mant d * 2 ^ (Double.expo d - m) =? Zpos p * 2 ^ (e - m)
  | _ => false
  end.

Definition line_203 (r : Double.t) : Double.t :=
  Double.add (Double.of_Z 100000) (Double.mul r (Double.of_Z 900000)).

Definition line_203_spec (r : Double.t) : spec_float :=
  SFadd 53 1024 (to_spec (Double.of_Z 100000))
    (SFmul 53 1024 (to_spec r) (to_spec (Double.of_Z 900000))).

(** ** [Number.prototype.toString] on a non-negative integer *)

Definition digit_of (d : Z) : ascii := ascii_of_nat (48 + Z.to_nat d).

Fixpoint digits (fuel : nat) (n : Z) (acc : string) : string :=
  match fuel with
  | O => acc
  | S fuel' =>
      let acc' := String (digit_of (n mod 10)) acc in
      if n <? 10 then acc' else digits fuel' (n / 10) acc'
  end.

Definition Number_toString (n : Z) : string :=
  digits (S (Z.to_nat (Z.log2 n))) n "".

Definition is_digit (c : ascii) : bool :=
  let n := nat_of_ascii c in (48 <=? n)%nat && (n <=? 57)%nat.

Fixpoint all_digits (s : string) : bool :=
  match s with
  | EmptyString => true
  | String c s' => is_digit c && all_digits s'
  end.

(** The integer a string of decimal digits denotes. *)
Fixpoint decimal_value (acc : Z) (s : string) : Z :=
  match s with
  | EmptyString => acc
  | String c s' => decimal_value (10 * acc + (Z.of_nat (nat_of_ascii c) - 48)) s'
  end.

(** Line 203: [Math.floor(100000 + Math.random() * 900000).toString()],
    [r] being the value [Math.random()] returned. *)
Definition generate_otp (r : Double.t) : string :=
  Number_toString
    (Double.floor
       (Double.add (Double.of_Z 100000) (Double.mul r (Double.of_Z 900000)))).

Definition sample_draws : list Double.t :=
  [ Double.mk 0 0; Double.mk 1 (-1); Double.mk 3 (-2); Double.mk 1 (-1074);
    Double.mk (2 ^ 53 - 1) (-53); Double.mk (2 ^ 53 - 1) (-54);
    Double.mk (2 ^ 52 + 12345) (-53); Double.mk 123456789123 (-60);
    Double.mk 6004799503160661 (-53); Double.mk 1 (-20) ].

(** More draws to compare on: [n] pseudo-random doubles of [0, 1) with
    exponents from -80 to -1, and the [3 * n] doubles at the top of three
    binades. *)
Fixpoint random_draws (n : nat) (seed : Z) : list Double.t :=
  match n with
  | O => []
  | S n' =>
      let s1 := (seed * 6364136223846793005 + 1442695040888963407) mod 2 ^ 64 in
      let s2 := (s1 * 6364136223846793005 + 1442695040888963407) mod 2 ^ 64 in
      let e := - (1 + (s2 / 2 ^ 20) mod 80) in
      let m := (s1 / 2 ^ 11) mod Z.min (2 ^ 53) (2 ^ (- e)) in
      Double.mk m e :: random_draws n' s2
  end.

Fixpoint top_draws (n : nat) : list Double.t :=
  match n with
  | O => []
  | S n' =>
      Double.mk (2 ^ 53 - 1 - Z.of_nat n') (-53)
      :: Double.mk (2 ^ 53 - 1 - 7 * Z.of_nat n') (-54)
      :: Double.mk (2 ^ 52 + 1 + 3 * Z.of_nat n') (-53)
      :: top_draws n'
  end.

(** ** JavaScript values and the plain object [otpStore]

    [const otpStore = {}] (line 11) is an ordinary object: reading
    [otpStore[k]] finds an own property or, failing that, whatever
    [Object.prototype] has under [k].  The handlers only ever store strings
    in it, so own properties are a finite map from keys to strings. *)

Inductive value : Set :=
| VUndefined
| VString (s : string)
| VInherited (name : string).  (* a member of Object.prototype *)

(** [!v] is [negb (truthy v)]: [undefined] and the empty string are falsy,
    functions and objects are truthy. *)
Definition truthy (v : value) : bool :=
  match v with
  | VUndefined => false
  | VString s => negb (String.eqb s "")
  | VInherited _ => true
  end.

(** [a === b]; [a !== b] is its negation. *)
Definition strict_eq (a b : value) : bool :=
  match a, b with
  | VUndefined, VUndefined => true
  | VString s, VString t => String.eqb s t
  | VInherited x, VInherited y => String.eqb x y
  | _, _ => false
  end.

(** A field of [req.body]: absent ([undefined] after destructuring) or the
    string the client sent. *)
Definition of_field (f : option string) : value :=
  match f with
  | None => VUndefined
  | Some s => VString s
  end.

(** The property key a field is converted to in [otpStore[email]]. *)
Definition to_key (f : option string) : string :=
  match f with
  | None => "undefined"
  | Some s => s
  end.

Module Obj.

(** The own property names of [Object.prototype]. *)
Definition prototype_names : list string :=
  [ "constructor"; "__defineGetter__"; "__defineSetter__"; "hasOwnProperty";
    "__lookupGetter__"; "__lookupSetter__"; "isPrototypeOf";
    "propertyIsEnumerable"; "toString"; "valueOf"; "__proto__";
    "toLocaleString" ]%string.

(** [o[k]] *)
Definition get (o : gmap string string) (k : string) : value :=
  match o !! k with
  | Some v => VString v
  | None =>
      if bool_decide (k ∈ prototype_names) then VInherited k else VUndefined
  end.

(** [o[k] = v] for a string [v].  Under the key [__proto__] the
    assignment reaches the accessor of [Object.prototype], which ignores
    a value that is neither an object nor [null]. *)
Definition set (o : gmap string string) (k v : string) : gmap string string :=
  if bool_decide (k = "__proto__"%string) then o else <[k := v]> o.

(** [delete o[k]] *)
Definition delete (o : gmap string string) (k : string) : gmap string string :=
  base.delete k o.

End Obj.

(** ** The [users] collection

    [userSchema] (user.model.js, lines 3-36) declares five string paths and
    [{ timestamps: true }]; MongoDB adds [_id] and Mongoose the version key
    [__v].  A stored document: *)

Record User : Set := mkUser {
  _id : string;
  username : string;
  email : string;
  password : string;
  phone : string;
  profession : string;
  createdAt : Z;
  updatedAt : Z;
  __v : Z
}.

(** What [res.json] and the templates receive: the document as a list of
    named fields, in schema order. *)
Inductive field : Set :=
| FId (s : string)
| FString (s : string)
| FDate (ms : Z)
| FNumber (n : Z).

Definition toObject (u : User) : list (string * field) :=
  [ ("_id", FId (_id u)); ("username", FString (username u));
    ("email", FString (email u)); ("password", FString (password u));
    ("phone", FString (phone u)); ("profession", FString (profession u));
    ("createdAt", FDate (createdAt u)); ("updatedAt", FDate (updatedAt u));
    ("__v", FNumber (__v u)) ]%string.

(** The projection [select('-name')] / [find({}, '-name')]. *)
Definition select_minus (name : string) (doc : list (string * field))
  : list (string * field) :=
  List.filter (fun kv => negb (String.eqb (fst kv) name)) doc.

(** The first document a predicate accepts, with the documents before and
    after it: how [findOne], [updateOne], [findOneAndUpdate] and
    [findOneAndDelete] pick their target. *)
Fixpoint split_first (p : User -> bool) (coll : list User)
  : option (list User * User * list User) :=
  match coll with
  | [] => None
  | u :: rest =>
      if p u then Some ([], u, rest)
      else match split_first p rest with
           | Some (before, v, after) => Some (u :: before, v, after)
           | None => None
           end
  end.

Inductive store_error : Set :=
| ValidationError   (* a schema validator rejected the document *)
| DuplicateKey      (* E11000: a unique index rejected the write *)
| CastError.        (* the id is not an ObjectId *)

(** The responses of the handlers. *)
Inductive payload : Set :=
| Message (message : string)
| MessageUser (message : string) (user : list (string * field))
| Users (docs : list (list (string * field))).

Inductive response : Set :=
| Render (view : string) (errors : list string)
         (locals : list (string * option string))
| RenderHome (users : list (list (string * field)))
             (verifyMessage : option string)
| Redirect (location : string)
| Json (status : Z) (body : payload)
| Unhandled.  (* the async handler rejected before sending anything *)

(** The server state: the collection behind the [User] model and the
    module-level [otpStore]. *)
Record server : Type := mkServer {
  users : list User;
  otpStore : gmap string string
}.

Definition initial : server := mkServer [] ∅.

(** What a request takes from outside the program. *)
Record env : Set := mkEnv {
  random : Double.t;   (* the value of Math.random() *)
  salt : string;       (* the salt bcrypt.hash generates *)
  mail_ok : bool;      (* whether transporter.sendMail resolves *)
  now : Z;             (* the clock, for the timestamps *)
  oid : string         (* the ObjectId generated for an insert *)
}.

Definition env_ok (e : env) : Prop := Double.unit_range (random e).

(** ** Library functions to run the handlers with

    The theorems hold for any [trim], [toLowerCase], [isEmail], bcrypt and
    ObjectId cast.  To evaluate a handler on an example one needs some:
    these work on ASCII; [isEmail] only looks for an [@], and the hash is
    a toy. *)
Module Sample.

Definition is_space (c : ascii) : bool :=
  let n := nat_of_ascii c in
  ((9 <=? n)%nat && (n <=? 13)%nat) || (n =? 32)%nat.

Fixpoint ltrim (s : string) : string :=
  match s with
  | EmptyString => EmptyString
  | String c s' => if is_space c then ltrim s' else s
  end.

Fixpoint rtrim (s : string) : string :=
  match s with
  | EmptyString => EmptyString
  | String c s' =>
      let t := rtrim s' in
      if is_space c && String.eqb t "" then EmptyString else String c t
  end.

Definition trim (s : string) : string := rtrim (ltrim s).

Definition lower (c : ascii) : ascii :=
  let n := nat_of_ascii c in
  if (65 <=? n)%nat && (n <=? 90)%nat then ascii_of_nat (n + 32) else c.

Fixpoint toLowerCase (s : string) : string :=
  match s with
  | EmptyString => EmptyString
  | String c s' => String (lower c) (toLowerCase s')
  end.

Fixpoint has_at (s : string) : bool :=
  match s with
  | EmptyString => false
  | String c s' => Ascii.eqb c "@" || has_at s'
  end.

Definition isEmail (s : string) : bool := has_at s.

Definition bcrypt_hash (salt data : string) : string :=
  ("$2b$10$" ++ salt ++ data)%string.

Definition bcrypt_compare (data hash : string) : bool :=
  String.eqb hash ("$2b$10$" ++ substring 7 22 hash ++ data)%string.

Definition castObjectId (s : string) : option string :=
  if (String.length s =? 24)%nat then Some (toLowerCase s) else None.

(** Two requests' worth of outside input: the draws 1/2 and 1/4. *)
Definition env1 : env :=
  mkEnv (Double.mk 1 (-1)) "abcdefghijklmnopqrstuv" true 1000
    "65a1b2c3d4e5f60718293a4b".
Definition env2 : env :=
  mkEnv (Double.mk 1 (-2)) "ABCDEFGHIJKLMNOPQRSTUV" false 2000
    "65a1b2c3d4e5f60718293a4c".

(** The state after Alice has registered, and after she has asked for
    a code. *)
Definition alice : User :=
  mkUser "65a1b2c3d4e5f60718293a4b" "alice" "alice@example.com"
    "$2b$10$abcdefghijklmnopqrstuvsecret1" "5550001111" "engineer"
    1000 1000 0.
Definition registered : server := mkServer [alice] ∅.
Definition requested : server :=
  mkServer [alice] (<["alice@example.com"%string := "550000"%string]> ∅).

End Sample.

(** ** More states to run the handlers on *)
Module Scenario.

(** Bob, registered after Alice. *)
Definition bob : User :=
  mkUser "65a1b2c3d4e5f60718293a4c" "bob" "bob@example.com"
    "$2b$10$ABCDEFGHIJKLMNOPQRSTUVsecret2" "5550002222" "farmer"
    2000 2000 0.
Definition two_users : server := mkServer [Sample.alice; bob] ∅.

(** Alice asked for a code, then her account was deleted. *)
Definition orphaned : server :=
  mkServer [] (<["alice@example.com"%string := "550000"%string]> ∅).

(** A hash without salt and its comparison, for which comparing a
    password with the stored form of its own hash succeeds. *)
Definition plain_hash (s data : string) : string := ("$" ++ data)%string.
Definition plain_compare (data hash : string) : bool :=
  String.eqb hash (Sample.trim ("$" ++ data)%string).

(** Carol has registered under [plain_hash], and asked for a code. *)
Definition carol : User :=
  mkUser "65a1b2c3d4e5f60718293a4b" "carol" "carol@example.com" "$secret3"
    "5550003333" "chemist" 1000 1000 0.
Definition carol_requested : server :=
  mkServer [carol] (<["carol@example.com"%string := "550000"%string]> ∅).

End Scenario.


Section Routes.

Set Default Proof Using "Type".

(** The library functions the routes call.  They are parameters: the
    theorems hold whatever these functions compute. *)
Variable trim : string -> string.          (* String.prototype.trim; also the validator's trim() *)
Variable toLowerCase : string -> string.   (* String.prototype.toLowerCase *)
Variable isEmail : string -> bool.         (* express-validator's isEmail() *)
Variable bcrypt_hash : string -> string -> string.   (* salt, data *)
Variable bcrypt_compare : string -> string -> bool.  (* data, hash *)
Variable castObjectId : string -> option string.     (* Mongoose's cast of an id *)

(** *** The model [User] (user.model.js)

    Mongoose runs the setters of a path on the values of documents,
    updates and query filters, the last declared first: [lowercase], then
    [trim]. *)
Definition cast_username (s : string) : string := trim (toLowerCase s).
Definition cast_email (s : string) : string := trim (toLowerCase s).
Definition cast_password (s : string) : string := trim s.
Definition cast_phone (s : string) : string := trim s.
Definition cast_profession (s : string) : string := trim s.

Definition nonempty (s : string) : bool := negb (String.eqb s "").
Definition minlength (n : nat) (s : string) : bool := (n <=? String.length s)%nat.

(** [required] on every path, [minlength] on three of them. *)
Definition validate (u : User) : bool :=
  nonempty (username u) && minlength 3 (username u)
  && nonempty (email u) && minlength 5 (email u)
  && nonempty (password u) && minlength 5 (password u)
  && nonempty (phone u)
  && nonempty (profession u).

(** The unique indexes: [_id], and the two paths declared
    [unique: true], [username] and [email].  [phone] has none. *)
Definition index_conflict (u v : User) : bool :=
  String.eqb (_id u) (_id v)
  || String.eqb (username u) (username v)
  || String.eqb (email u) (email v).

(** Filters, cast by the schema. *)
Definition by_email (e : string) (u : User) : bool :=
  String.eqb (email u) (cast_email e).
Definition by_phone (p : string) (u : User) : bool :=
  String.eqb (phone u) (cast_phone p).
Definition by_email_or_phone (e p : string) (u : User) : bool :=
  by_email e u || by_phone p u.
Definition by_email_and_phone (e p : string) (u : User) : bool :=
  by_email e u && by_phone p u.
Definition by_id (i : string) (u : User) : bool := String.eqb (_id u) i.

Definition User_findOne (q : User -> bool) (coll : list User) : option User :=
  List.find q coll.

(** [User.find().select('-password')] and [User.find({}, '-password')] *)
Definition User_find_minus_password (coll : list User)
  : list (list (string * field)) :=
  List.map (fun u => select_minus "password" (toObject u)) coll.

(** The document [User.create] builds from the fields it is given:
    every path cast by its setters, both timestamps set to the clock. *)
Definition new_user (e : env) (uname mail pw ph prof : string) : User :=
  mkUser (oid e) (cast_username uname) (cast_email mail) (cast_password pw)
    (cast_phone ph) (cast_profession prof) (now e) (now e) 0.

(** [User.create({ username, email, password, phone, profession })]:
    cast, validate, insert. *)
Definition User_create (e : env) (uname mail pw ph prof : string)
    (coll : list User) : store_error + list User :=
  let u := new_user e uname mail pw ph prof in
  if negb (validate u) then inl ValidationError
  else if List.existsb (index_conflict u) coll then inl DuplicateKey
  else inr (coll ++ [u]).

(** [User.findByIdAndUpdate(id, { username, phone, profession }, { new: true })].
    Update validators are off by default; the unique index on [username]
    still applies. *)
Definition User_findByIdAndUpdate (e : env) (id uname ph prof : string)
    (coll : list User) : store_error + (option User * list User) :=
  match castObjectId id with
  | None => inl CastError
  | Some i =>
      match split_first (by_id i) coll with
      | None => inr (None, coll)
      | Some (before, u, after) =>
          let u' := mkUser (_id u) (cast_username uname) (email u)
                      (password u) (cast_phone ph) (cast_profession prof)
                      (createdAt u) (now e) (__v u) in
          if List.existsb (fun v => String.eqb (username v) (username u'))
               (before ++ after)
          then inl DuplicateKey
          else inr (Some u', before ++ u' :: after)
      end
  end.

(** [User.findByIdAndDelete(id)] *)
Definition User_findByIdAndDelete (id : string) (coll : list User)
  : store_error + (option User * list User) :=
  match castObjectId id with
  | None => inl CastError
  | Some i =>
      match split_first (by_id i) coll with
      | None => inr (None, coll)
      | Some (before, u, after) => inr (Some u, before ++ after)
      end
  end.

(** [User.updateOne({ email }, { password })] *)
Definition User_updateOne_password (e : env) (mail pw : string)
    (coll : list User) : list User :=
  match split_first (by_email mail) coll with
  | None => coll
  | Some (before, u, after) =>
      before
      ++ mkUser (_id u) (username u) (email u) (cast_password pw) (phone u)
           (profession u) (createdAt u) (now e) (__v u)
      :: after
  end.

(** *** The handlers (user.routes.js)

    A handler takes the fields it reads from the request and the state,
    and returns what it sends and the state it leaves.  Fields are the
    strings a form submits; the two fields of [/verify-otp], which only
    meet [otpStore], may also be absent.  A handler runs to completion
    before the next request is served. *)

Definition check (ok : bool) (msg : string) : list string :=
  if ok then [] else [msg].

(** [GET /register], [GET /login], [GET /forgot-password], [GET /verify-otp] *)
Definition get_register : response := Render "register" [] [].
Definition get_login : response := Render "login" [] [].
Definition get_forgot_password : response := Render "forgot-password" [] [].
Definition get_verify_otp (mail : string) : response :=
  Render "verify-otp" [] [("email"%string, Some mail)].

(** [POST /register], lines 27-74 *)
Definition post_register (e : env) (uname mail pw ph prof : string)
    (st : server) : response * server :=
  let mail := trim mail in
  let pw := trim pw in
  let uname := trim uname in
  let ph := trim ph in
  let prof := trim prof in
  let oldInput :=
    [ ("username", Some uname); ("email", Some mail); ("password", Some pw);
      ("phone", Some ph); ("profession", Some prof) ]%string in
  let errors :=
    check (isEmail mail) "Enter a valid email"
    ++ check (minlength 5 pw) "Password must be at least 5 characters"
    ++ check (minlength 3 uname) "Name must be at least 3 characters"
    ++ check (minlength 10 ph) "Phone must be at least 10 digits"
    ++ check (nonempty prof) "Profession is required" in
  match errors with
  | _ :: _ => (Render "register" errors oldInput, st)
  | [] =>
      match User_findOne (by_email_or_phone mail ph) (users st) with
      | Some _ =>
          (Render "register" ["Email or phone already registered"%string]
             oldInput, st)
      | None =>
          let hashedPassword := bcrypt_hash (salt e) pw in
          match User_create e uname mail hashedPassword ph prof (users st) with
          | inr coll => (Redirect "/users/login", mkServer coll (otpStore st))
          | inl _ =>
              (Render "register" ["Server error, please try again"%string]
                 oldInput, st)
          end
      end
  end.

(** [POST /login], lines 84-124 *)
Definition post_login (mail pw : string) (st : server) : response * server :=
  let mail := trim mail in
  let pw := trim pw in
  let errors :=
    check (isEmail mail) "Enter valid email"
    ++ check (minlength 5 pw) "Enter valid password" in
  match errors with
  | msg :: _ => (Json 400 (Message msg), st)
  | [] =>
      match User_findOne (by_email mail) (users st) with
      | None => (Json 400 (Message "Email or password is incorrect!"), st)
      | Some user =>
          if negb (bcrypt_compare pw (password user))
          then (Json 400 (Message "Email or password is incorrect!"), st)
          else (Json 200 (Message "Login successful"), st)
      end
  end.

(** [GET /home], lines 127-131 *)
Definition get_home (st : server) : response * server :=
  (RenderHome (User_find_minus_password (users st)) None, st).

(** [GET /], lines 136-144 *)
Definition get_users (st : server) : response * server :=
  (Json 200 (Users (User_find_minus_password (users st))), st).

(** [PUT /:id], lines 147-166 *)
Definition put_user (e : env) (id uname ph prof : string) (st : server)
  : response * server :=
  match User_findByIdAndUpdate e id uname ph prof (users st) with
  | inl _ => (Json 500 (Message "Server error"), st)
  | inr (None, _) => (Json 404 (Message "User not found"), st)
  | inr (Some updatedUser, coll) =>
      (Json 200 (MessageUser "User updated successfully"
                   (select_minus "password" (toObject updatedUser))),
       mkServer coll (otpStore st))
  end.

(** [DELETE /:id], lines 169-182 *)
Definition delete_user (id : string) (st : server) : response * server :=
  match User_findByIdAndDelete id (users st) with
  | inl _ => (Json 500 (Message "Server error"), st)
  | inr (None, _) => (Json 404 (Message "User not found"), st)
  | inr (Some _, coll) =>
      (Json 200 (Message "User deleted successfully"),
       mkServer coll (otpStore st))
  end.

(** [POST /forgot-password], lines 192-215.  The assignment of line 204
    comes before the [await] of line 207: when [sendMail] rejects, the
    handler stops there, with the code already stored. *)
Definition post_forgot_password (e : env) (mail : string) (st : server)
  : response * server :=
  match User_findOne (by_email mail) (users st) with
  | None =>
      (Render "forgot-password" ["Email not found"%string]
         [("email"%string, Some mail)], st)
  | Some _ =>
      let otp := generate_otp (random e) in
      let st' := mkServer (users st) (Obj.set (otpStore st) mail otp) in
      if mail_ok e
      then (Render "verify-otp" [] [("email"%string, Some mail)], st')
      else (Unhandled, st')
  end.

(** [POST /verify-otp], lines 218-224 *)
Definition post_verify_otp (mail otp : option string) (st : server)
  : response * server :=
  if negb (strict_eq (Obj.get (otpStore st) (to_key mail)) (of_field otp))
  then (Render "verify-otp" ["Invalid OTP"%string] [("email"%string, mail)], st)
  else (Render "reset-password" [] [("email"%string, mail)], st).

(** [POST /reset-password], lines 227-236 *)
Definition post_reset_password (e : env) (mail pw : string) (st : server)
  : response * server :=
  if negb (truthy (Obj.get (otpStore st) mail))
  then (Render "reset-password" ["OTP expired or invalid"%string]
          [("email"%string, Some mail)], st)
  else
    let hashedPassword := bcrypt_hash (salt e) pw in
    let coll := User_updateOne_password e mail hashedPassword (users st) in
    (Redirect "/users/login", mkServer coll (Obj.delete (otpStore st) mail)).

(** [POST /verify-user], lines 240-259 *)
Definition post_verify_user (mail ph : string) (st : server)
  : response * server :=
  let user :=
    if nonempty mail && nonempty ph
    then User_findOne (by_email_and_phone mail ph) (users st)
    else if nonempty mail then User_findOne (by_email mail) (users st)
    else if nonempty ph then User_findOne (by_phone ph) (users st)
    else None in
  let verifyMessage :=
    match user with
    | Some _ => "User verified!"%string
    | None => "User not found or details incorrect."%string
    end in
  (RenderHome (User_find_minus_password (users st)) (Some verifyMessage), st).

(** *** The server as a transition system *)

Inductive request : Set :=
| GetRegister | GetLogin | GetForgotPassword
| GetVerifyOtp (mail : string)
| PostRegister (uname mail pw ph prof : string)
| PostLogin (mail pw : string)
| GetHome
| GetUsers
| PutUser (id uname ph prof : string)
| DeleteUser (id : string)
| PostForgotPassword (mail : string)
| PostVerifyOtp (mail otp : option string)
| PostResetPassword (mail pw : string)
| PostVerifyUser (mail ph : string).

Definition handle (e : env) (r : request) (st : server) : response * server :=
  match r with
  | GetRegister => (get_register, st)
  | GetLogin => (get_login, st)
  | GetForgotPassword => (get_forgot_password, st)
  | GetVerifyOtp mail => (get_verify_otp mail, st)
  | PostRegister uname mail pw ph prof => post_register e uname mail pw ph prof st
  | PostLogin mail pw => post_login mail pw st
  | GetHome => get_home st
  | GetUsers => get_users st
  | PutUser id uname ph prof => put_user e id uname ph prof st
  | DeleteUser id => delete_user id st
  | PostForgotPassword mail => post_forgot_password e mail st
  | PostVerifyOtp mail otp => post_verify_otp mail otp st
  | PostResetPassword mail pw => post_reset_password e mail pw st
  | PostVerifyUser mail ph => post_verify_user mail ph st
  end.

(** The states the server can be in: it starts empty and serves
    requests one after the other. *)
Inductive reachable : server -> Prop :=
| reachable_initial : reachable initial
| reachable_handle e r st :
    reachable st -> env_ok e -> reachable (snd (handle e r st)).

(** Serving a sequence of requests, each with its own [env]. *)
Definition serve (trace : list (env * request)) (st : server) : server :=
  fold_left (fun s er => snd (handle (fst er) (snd er) s)) trace st.

Definition is_verify_otp (r : request) : bool :=
  match r with
  | PostVerifyOtp _ _ => true
  | _ => false
  end.

(** The spec's names for the outcomes of the reset flow. *)
Definition NoPendingRequest (mail : string) : response :=
  Render "reset-password" ["OTP expired or invalid"%string]
    [("email"%string, Some mail)].
Definition InvalidCode (mail : option string) : response :=
  Render "verify-otp" ["Invalid OTP"%string] [("email"%string, mail)].
Definition VerifyOk (mail : option string) : response :=
  Render "reset-password" [] [("email"%string, mail)].
Definition InvalidCredentials : response :=
  Json 400 (Message "Email or password is incorrect!").

(** A code pending for an email: an own property of [otpStore]. *)
Definition pending (st : server) (mail code : string) : Prop :=
  otpStore st !! mail = Some code.

(** A string such as line 203 produces. *)
Definition is_otp (code : string) : Prop :=
  String.length code = 6%nat /\ all_digits code = true
  /\ 100000 <= decimal_value 0 code <= 999999.


(** The six decimal digits of a number, most significant first. *)
Definition six (n : Z) : string :=
  String (digit_of (n / 100000 mod 10))
    (String (digit_of (n / 10000 mod 10))
       (String (digit_of (n / 1000 mod 10))
          (String (digit_of (n / 100 mod 10))
             (String (digit_of (n / 10 mod 10))
                (String (digit_of (n mod 10)) EmptyString))))).

(** What holds of every state the server reaches: no stored email is
    what a name of [Object.prototype] is cast to, and [otpStore] holds
    generated codes under keys that are not such names. *)
Definition emails_ok (coll : list User) : Prop :=
  forall u, In u coll ->
  forall k, k ∈ Obj.prototype_names -> email u <> cast_email k.

Definition otps_ok (o : gmap string string) : Prop :=
  forall k c, o !! k = Some c -> (k ∉ Obj.prototype_names) /\ is_otp c.

Definition invariant (st : server) : Prop :=
  emails_ok (users st) /\ otps_ok (otpStore st).

(** An address [isEmail] accepts contains an [@]; casting neither adds
    nor removes one, so such an address is never cast to what a name of
    [Object.prototype] is cast to. *)
Hypothesis isEmail_not_inherited :
  forall s k, isEmail s = true -> k ∈ Obj.prototype_names ->
              cast_email s <> cast_email k.

(** Two versions of a document that differ at most in [username],
    [phone] and [profession]. *)
Definition same_but_profile (u u' : User) : Prop :=
  _id u' = _id u /\ email u' = email u /\ password u' = password u
  /\ createdAt u' = createdAt u /\ updatedAt u' = updatedAt u
  /\ __v u' = __v u.

(** The same, [updatedAt] left free. *)
Definition same_but_profile_and_stamp (u u' : User) : Prop :=
  _id u' = _id u /\ email u' = email u /\ password u' = password u
  /\ createdAt u' = createdAt u /\ __v u' = __v u.

(** *** More of what the reachable states keep *)

(** The three unique indexes hold of a collection. *)
Definition unique_ok (coll : list User) : Prop :=
  NoDup (List.map _id coll) /\ NoDup (List.map username coll)
  /\ NoDup (List.map email coll).

(** Every stored password came out of [bcrypt.hash]. *)
Definition hashed_ok (coll : list User) : Prop :=
  forall u, In u coll ->
  exists s pw, password u = cast_password (bcrypt_hash s pw).

(** The documents a response carries. *)
Definition documents_of (r : response) : list (list (string * field)) :=
  match r with
  | RenderHome docs _ => docs
  | Json _ (Users docs) => docs
  | Json _ (MessageUser _ doc) => [doc]
  | _ => []
  end.

(** The requests whose handlers assign to or delete from [otpStore], and
    those whose handlers write to the collection. *)
Definition writes_otpStore (r : request) : bool :=
  match r with
  | PostForgotPassword _ | PostResetPassword _ _ => true
  | _ => false
  end.

Definition writes_users (r : request) : bool :=
  match r with
  | PostRegister _ _ _ _ _ | PutUser _ _ _ _ | DeleteUser _
  | PostResetPassword _ _ => true
  | _ => false
  end.

(** Two versions of a document that differ at most in [password] and
    [updatedAt]. *)
Definition same_but_password (u u' : User) : Prop :=
  _id u' = _id u /\ username u' = username u /\ email u' = email u
  /\ phone u' = phone u /\ profession u' = profession u
  /\ createdAt u' = createdAt u /\ __v u' = __v u.


(** ** Properties *)

(** [tauto] on the goal alone, the parameters of the section left out. *)
Ltac prop :=
  try clear isEmail_not_inherited;
  try clear castObjectId; try clear bcrypt_compare; try clear bcrypt_hash;
  try clear isEmail; try clear toLowerCase; try clear trim;
  tauto.

(** *** Rounding *)

Lemma pow2_pos k : 0 <= k -> 0 < 2 ^ k.
Proof. intros. apply Z.pow_pos_nonneg; lia. Qed.

Lemma pow2_half k : 1 <= k -> 2 ^ k = 2 * 2 ^ (k - 1).
Proof.
  intros. replace k with (1 + (k - 1)) at 1 by lia.
  rewrite Z.pow_add_r by lia. reflexivity.
Qed.

Lemma log2_bounds n : 0 < n -> 2 ^ Z.log2 n <= n < 2 * 2 ^ Z.log2 n.
Proof.
  intros Hn. pose proof (Z.log2_spec n Hn) as H.
  rewrite Z.pow_succ_r in H by apply Z.log2_nonneg. exact H.
Qed.

Lemma rne_shift_cases n k :
  Double.rne_shift n k = n / 2 ^ k \/
  (Double.rne_shift n k = n / 2 ^ k + 1 /\ 2 ^ (k - 1) <= n mod 2 ^ k).
Proof.
  unfold Double.rne_shift.
  destruct (Z.ltb_spec (n mod 2 ^ k) (2 ^ (k - 1))); [now left|].
  destruct (Z.ltb_spec (2 ^ (k - 1)) (n mod 2 ^ k)); [right; split; lia|].
  destruct (Z.even (n / 2 ^ k)); [now left | right; split; lia].
Qed.

Ltac euclid n k :=
  let HP := fresh "HP" in
  pose proof (pow2_pos k ltac:(lia)) as HP;
  pose proof (Z.div_mod n (2 ^ k) ltac:(lia));
  pose proof (Z.mod_pos_bound n (2 ^ k) HP).

(** The rounded quotient is within half a unit of the exact one. *)
Lemma rne_shift_near n k :
  1 <= k -> 2 * Double.rne_shift n k * 2 ^ k <= 2 * n + 2 ^ k.
Proof.
  intros Hk. euclid n k. pose proof (pow2_half k Hk).
  destruct (rne_shift_cases n k) as [-> | [-> Hr]]; nia.
Qed.

(** Rounding does not cross a multiple of the unit. *)
Lemma rne_shift_le n k M :
  1 <= k -> n <= M * 2 ^ k -> Double.rne_shift n k <= M.
Proof.
  intros Hk Hn. euclid n k. pose proof (pow2_half k Hk).
  pose proof (pow2_pos (k - 1) ltac:(lia)).
  destruct (rne_shift_cases n k) as [-> | [-> Hr]]; nia.
Qed.

Lemma rne_shift_ge n k M :
  0 <= k -> M * 2 ^ k <= n -> M <= Double.rne_shift n k.
Proof.
  intros Hk Hn. euclid n k.
  destruct (rne_shift_cases n k) as [-> | [-> Hr]]; nia.
Qed.

(** [100000 + p], rounded and floored, for a double [p < 900000]. *)
Lemma sum_floor_bound m e :
  0 <= m <= 2 ^ 53 ->
  (0 <= e -> m * 2 ^ e < 900000) ->
  (e < 0 -> m < 900000 * 2 ^ (- e)) ->
  100000
  <= Double.floor (Double.add (Double.of_Z 100000) (Double.mk m e))
  <= 999999.
Proof.
  intros Hm Hpos Hneg.
  unfold Double.add, Double.of_Z; cbn [Double.mant Double.expo].
  destruct (Z.le_gt_cases 0 e) as [He | He].
  - rewrite Z.min_l by lia. rewrite !Z.sub_0_r. change (2 ^ 0) with 1.
    specialize (Hpos He).
    set (N := 100000 * 1 + m * 2 ^ e).
    assert (HN : 100000 <= N < 1000000).
    { subst N. pose proof (pow2_pos e He). nia. }
    unfold Double.round.
    assert (Z.log2 N < 20).
    { apply Z.log2_lt_pow2; [lia|]. change (2 ^ 20) with 1048576. lia. }
    destruct (Z.leb_spec (Z.log2 N - 52) 0); [|lia].
    unfold Double.floor; cbn [Double.mant Double.expo].
    change (0 <=? 0) with true. cbv iota. change (2 ^ 0) with 1. lia.
  - rewrite Z.min_r by lia. rewrite Z.sub_diag. change (2 ^ 0) with 1.
    specialize (Hneg He).
    replace (0 - e) with (- e) by lia.
    set (A := 2 ^ (- e)) in *.
    assert (HA : 0 < A) by (apply pow2_pos; lia).
    set (N := 100000 * A + m * 1).
    assert (HN : 100000 * A <= N < 1000000 * A) by (subst N; lia).
    unfold Double.round.
    destruct (Z.leb_spec (Z.log2 N - 52) 0) as [Hk | Hk].
    + (* no rounding: the sum is exact *)
      unfold Double.floor; cbn [Double.mant Double.expo].
      destruct (Z.leb_spec 0 e); [lia|]. fold A.
      split.
      * apply Z.div_le_lower_bound; lia.
      * apply Z.lt_succ_r. apply Z.div_lt_upper_bound; lia.
    + (* [k] low bits are rounded away; the unit stays below 2^-33 *)
      set (k := Z.log2 N - 52) in *.
      pose proof (log2_bounds N ltac:(lia)) as HL.
      replace (Z.log2 N) with (52 + k) in HL by lia.
      rewrite Z.pow_add_r in HL by lia.
      change (2 ^ 52) with 4503599627370496 in HL.
      assert (Hek : 33 + k <= - e).
      { destruct (Z.le_gt_cases (33 + k) (- e)) as [|Hc]; [assumption|exfalso].
        assert (A <= 2 ^ (32 + k)) as H by (apply Z.pow_le_mono_r; lia).
        rewrite Z.pow_add_r in H by lia. change (2 ^ 32) with 4294967296 in H.
        pose proof (pow2_pos k ltac:(lia)). nia. }
      set (b := - e - k) in *.
      assert (HAb : A = 2 ^ b * 2 ^ k).
      { subst A b. rewrite <- Z.pow_add_r by lia. f_equal. lia. }
      assert (HB : 2 ^ 33 <= 2 ^ b) by (apply Z.pow_le_mono_r; lia).
      change (2 ^ 33) with 8589934592 in HB.
      pose proof (pow2_pos k ltac:(lia)) as HK.
      assert (HK2 : 2 <= 2 ^ k).
      { change 2 with (2 ^ 1) at 1. apply Z.pow_le_mono_r; lia. }
      unfold Double.floor; cbn [Double.mant Double.expo].
      destruct (Z.leb_spec 0 (e + k)); [lia|].
      replace (- (e + k)) with b by lia.
      change (2 ^ 53) with 9007199254740992 in Hm.
      assert (Hlo : 100000 * 2 ^ b <= Double.rne_shift N k).
      { apply rne_shift_ge; [lia|]. nia. }
      assert (Hhi : Double.rne_shift N k <= 1000000 * 2 ^ b - 1).
      { apply rne_shift_le; [lia|]. subst N. nia. }
      split.
      * apply Z.div_le_lower_bound; lia.
      * apply Z.lt_succ_r. apply Z.div_lt_upper_bound; lia.
Qed.

(** [r * 900000], rounded, stays a double below 900000 when [r < 1]. *)
Lemma mul_900000_bound r :
  Double.unit_range r ->
  let p := Double.mul r (Double.of_Z 900000) in
  0 <= Double.mant p <= 2 ^ 53 /\
  (0 <= Double.expo p -> Double.mant p * 2 ^ Double.expo p < 900000) /\
  (Double.expo p < 0 -> Double.mant p < 900000 * 2 ^ (- Double.expo p)).
Proof.
  destruct r as [m e]. intros [[Hm He] Hlt]; cbn [Double.mant Double.expo] in *.
  unfold Double.mul, Double.of_Z; cbn [Double.mant Double.expo].
  rewrite Z.add_0_r. unfold Double.round.
  change (2 ^ 53) with 9007199254740992 in *.
  destruct Hlt as [-> | [He0 HmA]].
  - change (Z.log2 (0 * 900000) - 52 <=? 0) with true. cbv iota.
    cbn [Double.mant Double.expo]. change (0 * 900000) with 0.
    repeat split; try lia.
  - set (A := 2 ^ (- e)) in *.
    assert (HA : 0 < A) by (apply Z.pow_pos_nonneg; lia).
    set (n := m * 900000).
    destruct (Z.leb_spec (Z.log2 n - 52) 0) as [Hk | Hk];
      cbn [Double.mant Double.expo].
    + assert (n < 2 ^ 53).
      { destruct (Z.eq_dec n 0) as [->|]; [reflexivity|].
        apply Z.log2_lt_pow2; lia. }
      change (2 ^ 53) with 9007199254740992 in *.
      fold A. subst n. repeat split; lia.
    + set (k := Z.log2 n - 52) in *.
      assert (Hn0 : 0 < n) by (destruct (Z.log2_null n); lia).
      pose proof (log2_bounds n Hn0) as HL.
      replace (Z.log2 n) with (52 + k) in HL by lia.
      rewrite Z.pow_add_r in HL by lia.
      change (2 ^ 52) with 4503599627370496 in HL.
      pose proof (pow2_pos k ltac:(lia)) as HK.
      assert (Hk20 : 2 ^ k <= 2 ^ 20).
      { apply Z.pow_le_mono_r; [lia|].
        assert (Z.log2 n < 73); [|lia].
        apply Z.log2_lt_pow2; [lia|].
        change (2 ^ 73) with 9444732965739290427392. subst n. lia. }
      change (2 ^ 20) with 1048576 in Hk20.
      assert (Hek : 33 + k <= - e).
      { destruct (Z.le_gt_cases (33 + k) (- e)) as [|Hc]; [assumption|exfalso].
        assert (A <= 2 ^ (32 + k)) as H by (apply Z.pow_le_mono_r; lia).
        rewrite Z.pow_add_r in H by lia. change (2 ^ 32) with 4294967296 in H.
        subst n. nia. }
      set (b := - e - k) in *.
      assert (HAb : A = 2 ^ b * 2 ^ k).
      { subst A b. rewrite <- Z.pow_add_r by lia. f_equal. lia. }
      pose proof (pow2_pos b ltac:(lia)) as HB.
      pose proof (rne_shift_near n k ltac:(lia)) as Hnear.
      split; [split|split].
      * apply rne_shift_ge; lia.
      * apply rne_shift_le; lia.
      * lia.
      * intros _. replace (- (e + k)) with b by lia. subst n. nia.
Qed.

Lemma otp_value_range r :
  Double.unit_range r ->
  100000
  <= Double.floor
       (Double.add (Double.of_Z 100000) (Double.mul r (Double.of_Z 900000)))
  <= 999999.
Proof.
  intros Hr. destruct (mul_900000_bound r Hr) as (Hm & Hpos & Hneg).
  destruct (Double.mul r (Double.of_Z 900000)) as [m e].
  apply sum_floor_bound; assumption.
Qed.

Lemma unit_rangeb_spec d : Double.unit_rangeb d = true -> Double.unit_range d.
Proof.
  unfold Double.unit_rangeb, Double.unit_range, Double.representable.
  rewrite !andb_true_iff, orb_true_iff, andb_true_iff.
  rewrite !Z.leb_le, !Z.ltb_lt, Z.eqb_eq. prop.
Qed.

(** *** Decimal strings *)

Lemma digits_six fuel n :
  (6 <= fuel)%nat -> 100000 <= n <= 999999 -> digits fuel n "" = six n.
Proof.
  intros Hf Hn.
  do 6 (destruct fuel as [|fuel]; [lia|]).
  unfold six. cbn [digits].
  repeat rewrite Z.div_div by lia.
  change (10 * 10 * 10 * 10 * 10) with 100000;
    change (10 * 10 * 10 * 10) with 10000;
    change (10 * 10 * 10) with 1000; change (10 * 10) with 100.
  destruct (Z.ltb_spec n 10); [exfalso; lia|].
  destruct (Z.ltb_spec (n / 10) 10); [exfalso; Z.div_mod_to_equations; lia|].
  destruct (Z.ltb_spec (n / 100) 10); [exfalso; Z.div_mod_to_equations; lia|].
  destruct (Z.ltb_spec (n / 1000) 10); [exfalso; Z.div_mod_to_equations; lia|].
  destruct (Z.ltb_spec (n / 10000) 10); [exfalso; Z.div_mod_to_equations; lia|].
  destruct (Z.ltb_spec (n / 100000) 10); [|exfalso; Z.div_mod_to_equations; lia].
  reflexivity.
Qed.

Lemma decimal_digit d :
  0 <= d <= 9 ->
  is_digit (digit_of d) = true /\ Z.of_nat (nat_of_ascii (digit_of d)) - 48 = d.
Proof.
  intros H.
  assert (d = 0 \/ d = 1 \/ d = 2 \/ d = 3 \/ d = 4 \/ d = 5 \/ d = 6
          \/ d = 7 \/ d = 8 \/ d = 9) as Hd by lia.
  repeat (destruct Hd as [-> | Hd]; [split; reflexivity|]).
  subst d; split; reflexivity.
Qed.

Lemma Number_toString_six n :
  100000 <= n <= 999999 -> is_otp (Number_toString n) /\
  decimal_value 0 (Number_toString n) = n.
Proof.
  intros Hn. unfold Number_toString, is_otp.
  rewrite digits_six; [| |assumption].
  - assert (Hv : decimal_value 0 (six n) = n).
    { unfold six. cbn [decimal_value].
      rewrite !(fun d H => proj2 (decimal_digit d H))
        by (Z.div_mod_to_equations; lia).
      Z.div_mod_to_equations; lia. }
    rewrite Hv. repeat split; try lia.
    unfold six. cbn [all_digits].
    rewrite !(fun d H => proj1 (decimal_digit d H))
      by (Z.div_mod_to_equations; lia).
    reflexivity.
  - assert (16 <= Z.log2 n); [|lia].
    apply Z.log2_le_pow2; [lia|]. change (2 ^ 16) with 65536. lia.
Qed.

Lemma generate_otp_is_otp r : Double.unit_range r -> is_otp (generate_otp r).
Proof.
  intros Hr. apply Number_toString_six, otp_value_range, Hr.
Qed.

Lemma is_otp_nonempty code : is_otp code -> truthy (VString code) = true.
Proof. intros (Hlen & _). destruct code; [discriminate Hlen | reflexivity]. Qed.

(** *** The collection *)

Lemma split_first_Some p coll before u after :
  split_first p coll = Some (before, u, after) ->
  coll = before ++ u :: after /\ p u = true
  /\ forall v, In v before -> p v = false.
Proof.
  revert before. induction coll as [|w coll IH]; intros before H; [discriminate|].
  cbn in H. destruct (p w) eqn:Hw.
  - injection H as <- <- <-. repeat split; [assumption | intros v []].
  - destruct (split_first p coll) as [[[b' v'] a']|]; [|discriminate].
    injection H as <- <- <-.
    destruct (IH b' eq_refl) as (-> & Hu & Hb).
    repeat split; [assumption|]. intros v [<- | Hv]; auto.
Qed.

Lemma split_first_None p coll :
  split_first p coll = None -> forall v, In v coll -> p v = false.
Proof.
  induction coll as [|w coll IH]; intros H v Hv; [destruct Hv|].
  cbn in H. destruct (p w) eqn:Hw; [discriminate|].
  destruct (split_first p coll) as [[[b' v'] a']|]; [discriminate|].
  destruct Hv as [<- | Hv]; auto.
Qed.

Lemma findOne_split_first p coll :
  User_findOne p coll
  = match split_first p coll with
    | Some (_, u, _) => Some u
    | None => None
    end.
Proof.
  unfold User_findOne. induction coll as [|w coll IH]; [reflexivity|].
  cbn. destruct (p w); [reflexivity|]. rewrite IH.
  destruct (split_first p coll) as [[[b v] a]|]; reflexivity.
Qed.

Lemma findOne_Some p coll u :
  User_findOne p coll = Some u -> In u coll /\ p u = true.
Proof. unfold User_findOne. apply find_some. Qed.

Lemma emails_ok_app coll1 coll2 :
  emails_ok (coll1 ++ coll2) <-> emails_ok coll1 /\ emails_ok coll2.
Proof.
  unfold emails_ok. split.
  - intros H. split; intros u Hu; apply H, in_or_app; auto.
  - intros [H1 H2] u Hu. apply in_app_or in Hu as [Hu | Hu]; auto.
Qed.

Lemma emails_ok_cons u coll :
  emails_ok (u :: coll)
  <-> (forall k, k ∈ Obj.prototype_names -> email u <> cast_email k)
      /\ emails_ok coll.
Proof.
  unfold emails_ok. split.
  - intros H. split; [apply H; left; reflexivity|].
    intros v Hv. apply H. right. assumption.
  - intros [H1 H2] v [<- | Hv]; auto.
Qed.

Lemma emails_ok_replace before u u' after :
  email u' = email u ->
  emails_ok (before ++ u :: after) -> emails_ok (before ++ u' :: after).
Proof.
  intros He. rewrite !emails_ok_app, !emails_ok_cons, He. prop.
Qed.

Lemma emails_ok_remove before u after :
  emails_ok (before ++ u :: after) -> emails_ok (before ++ after).
Proof. rewrite !emails_ok_app, emails_ok_cons. prop. Qed.

(** A successful check of the validators. *)
Lemma check_app_nil ok msg rest :
  check ok msg ++ rest = [] -> ok = true /\ rest = [].
Proof. destruct ok; cbn; [prop | discriminate]. Qed.

(** *** [otpStore] *)

Lemma get_own o k c : o !! k = Some c -> Obj.get o k = VString c.
Proof. unfold Obj.get. intros ->. reflexivity. Qed.

Lemma get_absent o k :
  o !! k = None -> k ∉ Obj.prototype_names -> Obj.get o k = VUndefined.
Proof.
  unfold Obj.get. intros -> Hk. rewrite bool_decide_eq_false_2; auto.
Qed.

Lemma get_inherited o k :
  o !! k = None -> k ∈ Obj.prototype_names -> Obj.get o k = VInherited k.
Proof.
  unfold Obj.get. intros -> Hk. rewrite bool_decide_eq_true_2; auto.
Qed.

Lemma set_own o k v :
  k ∉ Obj.prototype_names -> Obj.set o k v = <[k := v]> o.
Proof.
  intros Hk. unfold Obj.set. rewrite bool_decide_eq_false_2; [reflexivity|].
  intros ->. apply Hk. apply (bool_decide_unpack _). reflexivity.
Qed.

Lemma strict_eq_string s t : strict_eq (VString s) (VString t) = true <-> s = t.
Proof. cbn. apply String.eqb_eq. Qed.

(** *** The invariant *)

Lemma invariant_initial : invariant initial.
Proof.
  split.
  - intros u [].
  - intros k c H. cbn in H. rewrite lookup_empty in H. discriminate.
Qed.

(** A filter by email that finds a user was not given a name of
    [Object.prototype]. *)
Lemma found_not_inherited coll mail u :
  emails_ok coll -> User_findOne (by_email mail) coll = Some u ->
  mail ∉ Obj.prototype_names.
Proof.
  intros Hok Hf Hk. apply findOne_Some in Hf as [Hin Hu].
  unfold by_email in Hu. apply String.eqb_eq in Hu.
  exact (Hok u Hin mail Hk Hu).
Qed.

Lemma invariant_handle e r st :
  env_ok e -> invariant st -> invariant (snd (handle e r st)).
Proof using Type isEmail_not_inherited.
  intros He [Hu Ho].
  destruct r; cbn [handle snd]; try (split; assumption).
  - (* POST /register *)
    unfold post_register.
    destruct (check (isEmail (trim mail)) _ ++ _) eqn:Herr; [|split; assumption].
    apply check_app_nil in Herr as [Hmail _].
    destruct (User_findOne _ _); [split; assumption|].
    unfold User_create.
    destruct (negb (validate _)); [split; assumption|].
    destruct (existsb _ _); [split; assumption|].
    split; [|assumption]. cbn [users].
    apply emails_ok_app. split; [assumption|].
    apply emails_ok_cons. split; [|intros ? []].
    intros k Hk. cbn [email new_user]. apply isEmail_not_inherited; assumption.
  - (* POST /login *)
    unfold post_login.
    destruct (check _ _ ++ _); [|split; assumption].
    destruct (User_findOne _ _); [|split; assumption].
    destruct (negb _); split; assumption.
  - (* PUT /:id *)
    unfold put_user, User_findByIdAndUpdate.
    destruct (castObjectId id); [|split; assumption].
    destruct (split_first _ _) as [[[before u] after]|] eqn:Hs; [|split; assumption].
    destruct (existsb _ _); [split; assumption|].
    split; [|assumption]. cbn [users snd].
    apply split_first_Some in Hs as (Hcoll & _). rewrite Hcoll in Hu.
    eapply emails_ok_replace; [|eassumption]. reflexivity.
  - (* DELETE /:id *)
    unfold delete_user, User_findByIdAndDelete.
    destruct (castObjectId id); [|split; assumption].
    destruct (split_first _ _) as [[[before u] after]|] eqn:Hs; [|split; assumption].
    split; [|assumption]. cbn [users snd].
    apply split_first_Some in Hs as (Hcoll & _). rewrite Hcoll in Hu.
    eapply emails_ok_remove; eassumption.
  - (* POST /forgot-password *)
    unfold post_forgot_password.
    destruct (User_findOne _ _) eqn:Hf; [|split; assumption].
    pose proof (found_not_inherited _ _ _ Hu Hf) as Hk.
    assert (invariant (mkServer (users st)
              (Obj.set (otpStore st) mail (generate_otp (random e))))).
    { split; [assumption|]. cbn [otpStore].
      rewrite set_own by assumption.
      intros k c Hkc. destruct (decide (mail = k)) as [<- | Hne].
      - rewrite lookup_insert_eq in Hkc. injection Hkc as <-.
        split; [assumption | apply generate_otp_is_otp, He].
      - rewrite lookup_insert_ne in Hkc by assumption. eauto. }
    destruct (mail_ok e); assumption.
  - (* POST /verify-otp *)
    unfold post_verify_otp. destruct (negb _); split; assumption.
  - (* POST /reset-password *)
    unfold post_reset_password.
    destruct (negb _); [split; assumption|].
    split; cbn [users otpStore snd].
    + unfold User_updateOne_password.
      destruct (split_first _ _) as [[[before u] after]|] eqn:Hs; [|assumption].
      apply split_first_Some in Hs as (Hcoll & _). rewrite Hcoll in Hu.
      eapply emails_ok_replace; [|eassumption]. reflexivity.
    + intros k c Hkc. unfold Obj.delete in Hkc.
      apply lookup_delete_Some in Hkc as [_ Hkc]. eauto.
Qed.

Lemma reachable_invariant st : reachable st -> invariant st.
Proof using Type isEmail_not_inherited.
  induction 1 as [|e r st _ IH He].
  - apply invariant_initial.
  - apply invariant_handle; assumption.
Qed.

(** *** OTP generation *)

(** C7: every code line 203 produces is a string of six decimal digits
    whose value lies between 100000 and 999999, whatever double in [0, 1)
    [Math.random()] returned. *)
Theorem generate_otp_six_digits r :
  Double.unit_range r ->
  String.length (generate_otp r) = 6%nat
  /\ all_digits (generate_otp r) = true
  /\ 100000 <= decimal_value 0 (generate_otp r) <= 999999.
Proof.
  intros Hr.
  pose proof (otp_value_range r Hr) as Hrange.
  destruct (Number_toString_six _ Hrange) as [(Hlen & Hdig & Hlo & Hhi) _].
  unfold generate_otp.
  split; [exact Hlen|]. split; [exact Hdig|]. split; [exact Hlo | exact Hhi].
Qed.

(** *** Verification *)

Lemma verify_otp_state mail otp st : snd (post_verify_otp mail otp st) = st.
Proof. unfold post_verify_otp. destruct (negb _); reflexivity. Qed.

Lemma verify_otp_ok mail code st :
  fst (post_verify_otp (Some mail) (Some code) st) = VerifyOk (Some mail)
  <-> pending st mail code.
Proof.
  unfold post_verify_otp, pending, Obj.get, VerifyOk. cbn [to_key of_field].
  destruct (otpStore st !! mail) as [c|].
  - cbn [strict_eq]. destruct (String.eqb_spec c code) as [-> | Hne]; cbn.
    + prop.
    + split; [discriminate | intros [=]; contradiction].
  - destruct (bool_decide _); cbn; split; discriminate.
Qed.

Lemma verify_otp_cases mail code st :
  fst (post_verify_otp (Some mail) (Some code) st) = VerifyOk (Some mail)
  \/ fst (post_verify_otp (Some mail) (Some code) st) = InvalidCode (Some mail).
Proof. unfold post_verify_otp. destruct (negb _); [right | left]; reflexivity. Qed.

Lemma verify_otp_invalid mail code st :
  fst (post_verify_otp (Some mail) (Some code) st) = InvalidCode (Some mail)
  <-> ~ pending st mail code.
Proof.
  rewrite <- verify_otp_ok.
  destruct (verify_otp_cases mail code st) as [H | H]; rewrite H.
  - split; [discriminate | intros Hn; destruct Hn; reflexivity].
  - split; [discriminate | reflexivity].
Qed.

(** C3: for an email and a submitted code, [/verify-otp] answers with the
    reset form exactly when [otpStore] holds, for that email, the very
    string submitted, and with "Invalid OTP" otherwise; it leaves the
    state as it was, so asking again gives the same answer. *)
Theorem verify_otp_iff_pending mail code st :
  (fst (post_verify_otp (Some mail) (Some code) st) = VerifyOk (Some mail)
   <-> pending st mail code)
  /\ (fst (post_verify_otp (Some mail) (Some code) st) = InvalidCode (Some mail)
      <-> ~ pending st mail code)
  /\ snd (post_verify_otp (Some mail) (Some code) st) = st
  /\ post_verify_otp (Some mail) (Some code)
       (snd (post_verify_otp (Some mail) (Some code) st))
     = post_verify_otp (Some mail) (Some code) st.
Proof.
  split; [apply verify_otp_ok|]. split; [apply verify_otp_invalid|].
  split; [apply verify_otp_state|]. rewrite verify_otp_state. reflexivity.
Qed.

(** A request that leaves out the [otp] field is outside C3: then
    [otp] is [undefined], and so is [otpStore[email]] when nothing is
    pending, and [undefined !== undefined] is false. *)
Remark verify_otp_absent_field mail st :
  otpStore st !! mail = None -> mail ∉ Obj.prototype_names ->
  fst (post_verify_otp (Some mail) None st) = VerifyOk (Some mail).
Proof.
  intros Hnone Hk. unfold post_verify_otp. cbn [to_key of_field].
  rewrite get_absent by assumption. reflexivity.
Qed.

(** *** Reset *)

Lemma reset_password_pending e mail pw code st :
  pending st mail code -> truthy (VString code) = true ->
  post_reset_password e mail pw st
  = (Redirect "/users/login",
     mkServer (User_updateOne_password e mail (bcrypt_hash (salt e) pw) (users st))
              (base.delete mail (otpStore st))).
Proof.
  intros Hp Ht. unfold post_reset_password.
  rewrite (get_own _ _ _ Hp), Ht. reflexivity.
Qed.

Lemma reset_password_nothing_pending e mail pw st :
  otpStore st !! mail = None -> mail ∉ Obj.prototype_names ->
  post_reset_password e mail pw st = (NoPendingRequest mail, st).
Proof.
  intros Hnone Hk. unfold post_reset_password.
  rewrite get_absent by assumption. reflexivity.
Qed.

(** What C1 asks for holds of every email that is not a property name of
    [Object.prototype]. *)
Lemma reset_password_own_keys e mail pw st :
  reachable st -> mail ∉ Obj.prototype_names ->
  (otpStore st !! mail = None ->
   post_reset_password e mail pw st = (NoPendingRequest mail, st))
  /\ (forall code, pending st mail code ->
      post_reset_password e mail pw st
      = (Redirect "/users/login",
         mkServer
           (User_updateOne_password e mail (bcrypt_hash (salt e) pw) (users st))
           (base.delete mail (otpStore st)))
      /\ forall e' pw',
          fst (post_reset_password e' mail pw'
                 (snd (post_reset_password e mail pw st)))
          = NoPendingRequest mail).
Proof using Type isEmail_not_inherited.
  intros Hr Hk. split.
  - intros Hnone. apply reset_password_nothing_pending; assumption.
  - intros code Hp.
    destruct (reachable_invariant st Hr) as [_ Ho].
    destruct (Ho mail code Hp) as [_ Hotp].
    pose proof (reset_password_pending e mail pw code st Hp
                  (is_otp_nonempty code Hotp)) as Heq.
    split; [exact Heq|]. intros e' pw'. rewrite Heq. cbn [snd].
    rewrite reset_password_nothing_pending; [reflexivity| |assumption].
    cbn [otpStore]. apply lookup_delete_eq.
Qed.

(** C1, where the code departs from it: [otpStore] is a plain object, so
    [otpStore["constructor"]] is the inherited [Object] function, which
    is truthy.  With nothing pending at all, the guard of line 229 lets
    the request through and the handler redirects to the login page. *)
Theorem reset_password_inherited_key e pw :
  (forall code, ~ pending initial "constructor" code)
  /\ post_reset_password e "constructor" pw initial
     = (Redirect "/users/login", initial).
Proof.
  split.
  - intros code H. unfold pending in H. cbn in H.
    rewrite lookup_empty in H. discriminate.
  - unfold post_reset_password, initial. cbn [otpStore users].
    rewrite get_inherited;
      [|apply lookup_empty|apply (bool_decide_unpack _); reflexivity].
    cbn [truthy negb]. unfold User_updateOne_password, Obj.delete.
    cbn [split_first]. rewrite delete_empty. reflexivity.
Qed.

(** *** Reset does not depend on verification *)

Lemma serve_verify_only trace st :
  forallb (fun er => is_verify_otp (snd er)) trace = true ->
  serve trace st = st.
Proof.
  unfold serve. revert st.
  induction trace as [|[e r] trace IH]; intros st H; [reflexivity|].
  cbn in H. apply andb_true_iff in H as [Hr Ht].
  cbn [fold_left fst snd]. destruct r; try discriminate.
  cbn [handle]. rewrite verify_otp_state. apply IH, Ht.
Qed.

(** C10: with a code pending for an email, [/reset-password] goes
    through (it stores the new hash, drops the code and redirects to the
    login page) after any sequence of [/verify-otp] requests: none at
    all, or only ones answered "Invalid OTP". *)
Theorem reset_password_ignores_verification e mail pw code trace st :
  reachable st ->
  pending st mail code ->
  forallb (fun er => is_verify_otp (snd er)) trace = true ->
  post_reset_password e mail pw (serve trace st)
  = (Redirect "/users/login",
     mkServer (User_updateOne_password e mail (bcrypt_hash (salt e) pw) (users st))
              (base.delete mail (otpStore st))).
Proof using Type isEmail_not_inherited.
  intros Hr Hp Ht. rewrite (serve_verify_only trace st Ht).
  destruct (reachable_invariant st Hr) as [_ Ho].
  destruct (Ho mail code Hp) as [_ Hotp].
  apply (reset_password_pending e mail pw code st Hp), is_otp_nonempty, Hotp.
Qed.

(** *** Issuing codes *)

Lemma forgot_password_found e mail st u :
  invariant st -> User_findOne (by_email mail) (users st) = Some u ->
  snd (post_forgot_password e mail st)
  = mkServer (users st) (<[mail := generate_otp (random e)]> (otpStore st)).
Proof.
  intros [Hu _] Hf. unfold post_forgot_password. rewrite Hf.
  rewrite set_own by (eapply found_not_inherited; eassumption).
  destruct (mail_ok e); reflexivity.
Qed.

(** C6: for an email a user has, the code is in [otpStore] once
    [/forgot-password] has run, whether [sendMail] resolved or not; when
    it rejects, the handler sends nothing and the code stays. *)
Theorem forgot_password_stores_before_sending e mail st u :
  reachable st ->
  User_findOne (by_email mail) (users st) = Some u ->
  pending (snd (post_forgot_password e mail st)) mail (generate_otp (random e))
  /\ (mail_ok e = false ->
      post_forgot_password e mail st
      = (Unhandled,
         mkServer (users st)
           (<[mail := generate_otp (random e)]> (otpStore st)))).
Proof using Type isEmail_not_inherited.
  intros Hr Hf. pose proof (reachable_invariant st Hr) as Hinv.
  pose proof (forgot_password_found e mail st u Hinv Hf) as Hst.
  split.
  - rewrite Hst. unfold pending. cbn [otpStore]. apply lookup_insert_eq.
  - intros Hfail. rewrite <- Hst. unfold post_forgot_password.
    rewrite Hf, Hfail. reflexivity.
Qed.

(** C2, as the code has it: after two [/forgot-password] requests for
    an email, [otpStore] holds one code for it, the second; [/verify-otp]
    accepts a code exactly when it is that one, and answers "Invalid OTP"
    to the first code whenever the two draws gave different codes. *)
Theorem second_otp_replaces_first e1 e2 mail st u :
  reachable st ->
  User_findOne (by_email mail) (users st) = Some u ->
  let st2 :=
    snd (post_forgot_password e2 mail (snd (post_forgot_password e1 mail st))) in
  let c1 := generate_otp (random e1) in
  let c2 := generate_otp (random e2) in
  (forall code, pending st2 mail code <-> code = c2)
  /\ (forall code,
        fst (post_verify_otp (Some mail) (Some code) st2) = VerifyOk (Some mail)
        <-> code = c2)
  /\ (c1 <> c2 ->
      fst (post_verify_otp (Some mail) (Some c1) st2) = InvalidCode (Some mail)).
Proof using Type isEmail_not_inherited.
  intros Hr Hf st2 c1 c2. pose proof (reachable_invariant st Hr) as Hinv.
  assert (Hp : forall code, pending st2 mail code <-> code = c2).
  { intros code. subst st2.
    rewrite (forgot_password_found e1 mail st u Hinv Hf).
    unfold post_forgot_password. cbn [users]. rewrite Hf.
    rewrite set_own by (destruct Hinv; eapply found_not_inherited; eassumption).
    unfold pending. destruct (mail_ok e2); cbn [snd otpStore];
      rewrite lookup_insert_eq; fold c2;
      (split; [intros [=]; congruence | intros ->; reflexivity]). }
  split; [exact Hp|]. split.
  - intros code. rewrite verify_otp_ok. apply Hp.
  - intros Hne. apply verify_otp_invalid. rewrite Hp. exact Hne.
Qed.

(** *** Login *)

(** C4: a login that passes the validators and fails is answered the
    same way, status 400 and "Email or password is incorrect!", whether
    no user has the email or the password does not match the stored
    hash. *)
Theorem login_failures_identical mail1 pw1 st1 mail2 pw2 st2 user :
  isEmail (trim mail1) = true -> minlength 5 (trim pw1) = true ->
  isEmail (trim mail2) = true -> minlength 5 (trim pw2) = true ->
  User_findOne (by_email (trim mail1)) (users st1) = None ->
  User_findOne (by_email (trim mail2)) (users st2) = Some user ->
  bcrypt_compare (trim pw2) (password user) = false ->
  fst (post_login mail1 pw1 st1) = fst (post_login mail2 pw2 st2)
  /\ fst (post_login mail1 pw1 st1) = InvalidCredentials.
Proof.
  intros Hm1 Hp1 Hm2 Hp2 Hnone Hsome Hcmp. unfold post_login.
  rewrite Hm1, Hp1, Hm2, Hp2. cbn [check app].
  rewrite Hnone, Hsome, Hcmp. split; reflexivity.
Qed.

(** *** The store's unique indexes *)

Lemma existsb_index_conflict d coll u :
  In u coll ->
  email u = email d \/ username u = username d ->
  List.existsb (index_conflict d) coll = true.
Proof.
  intros Hin Hdup. apply existsb_exists. exists u. split; [assumption|].
  unfold index_conflict. apply orb_true_iff.
  destruct Hdup as [H | H]; rewrite H.
  - right. apply String.eqb_refl.
  - left. apply orb_true_iff. right. apply String.eqb_refl.
Qed.

(** C5, as the code has it: [User.create] fails when a document with
    the same email or the same username is already stored, with
    DuplicateKey, or with ValidationError when the new document does not
    pass the validators, which run before the insert. *)
Theorem create_duplicate_key e uname mail pw ph prof coll u :
  In u coll ->
  email u = cast_email mail \/ username u = cast_username uname ->
  User_create e uname mail pw ph prof coll
  = inl (if validate (new_user e uname mail pw ph prof)
         then DuplicateKey else ValidationError).
Proof.
  intros Hin Hdup. unfold User_create.
  destruct (validate _); cbn [negb]; [|reflexivity].
  rewrite (existsb_index_conflict _ coll u Hin); [reflexivity|].
  exact Hdup.
Qed.

(** A phone number already stored is caught by the lookup of line 46,
    before [User.create] is reached. *)
Lemma register_duplicate e uname mail pw ph prof st u :
  In u (users st) ->
  email u = cast_email (trim mail) \/ phone u = cast_phone (trim ph) ->
  isEmail (trim mail) = true -> minlength 5 (trim pw) = true ->
  minlength 3 (trim uname) = true -> minlength 10 (trim ph) = true ->
  nonempty (trim prof) = true ->
  exists oldInput,
    post_register e uname mail pw ph prof st
    = (Render "register" ["Email or phone already registered"%string] oldInput,
       st).
Proof.
  intros Hin Hdup H1 H2 H3 H4 H5. unfold post_register.
  rewrite H1, H2, H3, H4, H5. cbn [check app].
  destruct (User_findOne _ _) eqn:Hf; [eexists; reflexivity|].
  exfalso. unfold User_findOne in Hf.
  pose proof (find_none _ _ Hf u Hin) as Hu.
  unfold by_email_or_phone, by_email, by_phone in Hu.
  apply orb_false_iff in Hu as [Hu1 Hu2].
  destruct Hdup as [H | H]; rewrite H, String.eqb_refl in *; discriminate.
Qed.

(** *** Listing *)

Lemma select_minus_password u :
  select_minus "password" (toObject u)
  = [ ("_id", FId (_id u)); ("username", FString (username u));
      ("email", FString (email u)); ("phone", FString (phone u));
      ("profession", FString (profession u));
      ("createdAt", FDate (createdAt u)); ("updatedAt", FDate (updatedAt u));
      ("__v", FNumber (__v u)) ]%string.
Proof. reflexivity. Qed.

(** C8: [GET /] answers, in every state, with one document per stored
    user, each the user's fields without [password]; no document it
    returns has a field named [password] or [passwordHash]. *)
Theorem list_users_hides_password st :
  exists docs,
    get_users st = (Json 200 (Users docs), st)
    /\ Forall2
         (fun u doc =>
            doc = select_minus "password" (toObject u)
            /\ forall name v, In (name, v) doc ->
                name <> "password"%string /\ name <> "passwordHash"%string)
         (users st) docs.
Proof.
  exists (User_find_minus_password (users st)). split; [reflexivity|].
  unfold User_find_minus_password.
  induction (users st) as [|u coll IH]; cbn [List.map]; constructor; [|exact IH].
  split; [reflexivity|]. rewrite select_minus_password.
  intros name v Hin. cbn [In] in Hin.
  repeat (destruct Hin as [[= <- <-] | Hin]; [split; discriminate|]).
  destruct Hin.
Qed.

(** *** Updating *)

Lemma Forall2_same {A} (R : A -> A -> Prop) (l : list A) :
  (forall x, R x x) -> Forall2 R l l.
Proof. intros HR. induction l; constructor; auto. Qed.

Lemma Forall2_replace {A} (R : A -> A -> Prop) before x y after :
  (forall x, R x x) -> R x y ->
  Forall2 R (before ++ x :: after) (before ++ y :: after).
Proof.
  intros HR Hxy. apply Forall2_app; [apply Forall2_same, HR|].
  constructor; [exact Hxy | apply Forall2_same, HR].
Qed.

(** C9, as the code has it: [PUT /:id] leaves [otpStore] alone and, in
    every document, the id, the email, the password hash, [createdAt]
    and [__v]; a document with another id is left as it was.  When it
    answers 200, the document with that id has the new username, phone
    and profession, cast by the schema, and [updatedAt] set to the
    clock. *)
Theorem put_user_frame e id uname ph prof st :
  otpStore (snd (put_user e id uname ph prof st)) = otpStore st
  /\ Forall2
       (fun u u' =>
          same_but_profile_and_stamp u u'
          /\ (castObjectId id <> Some (_id u) -> u' = u))
       (users st) (users (snd (put_user e id uname ph prof st)))
  /\ (forall doc,
        fst (put_user e id uname ph prof st)
        = Json 200 (MessageUser "User updated successfully" doc) ->
        exists u',
          In u' (users (snd (put_user e id uname ph prof st)))
          /\ castObjectId id = Some (_id u')
          /\ username u' = cast_username uname
          /\ phone u' = cast_phone ph
          /\ profession u' = cast_profession prof
          /\ updatedAt u' = now e
          /\ doc = select_minus "password" (toObject u')).
Proof.
  set (R := fun u u' : User =>
              same_but_profile_and_stamp u u'
              /\ (castObjectId id <> Some (_id u) -> u' = u)).
  assert (HR : forall x, R x x).
  { intros x. unfold R, same_but_profile_and_stamp. prop. }
  unfold put_user, User_findByIdAndUpdate.
  destruct (castObjectId id) as [i|] eqn:Hid;
    [|repeat split; [apply Forall2_same, HR | discriminate]].
  destruct (split_first (by_id i) (users st)) as [[[before u] after]|] eqn:Hs;
    [|repeat split; [apply Forall2_same, HR | discriminate]].
  destruct (existsb _ _);
    [repeat split; [apply Forall2_same, HR | discriminate]|].
  apply split_first_Some in Hs as (Hcoll & Hu & _).
  unfold by_id in Hu. apply String.eqb_eq in Hu.
  cbn [fst snd users otpStore]. split; [reflexivity|]. split.
  - rewrite Hcoll. apply Forall2_replace; [exact HR|].
    split; [unfold same_but_profile_and_stamp; cbn; prop|].
    intros Hne. exfalso. apply Hne. rewrite Hu. reflexivity.
  - intros doc [= <-]. eexists. split; [apply in_elt|].
    cbn. rewrite Hu. repeat split; reflexivity.
Qed.

(** *** The unique indexes, in every reachable state *)

Lemma NoDup_map_snoc {B} (f : User -> B) coll u :
  NoDup (List.map f coll) -> (forall v, In v coll -> f v <> f u) ->
  NoDup (List.map f (coll ++ [u])).
Proof.
  intros Hnd Hne. rewrite List.map_app. cbn [List.map].
  apply NoDup_app. split; [exact Hnd|]. split; [|apply NoDup_singleton].
  intros x Hx Hx'. apply list_elem_of_singleton in Hx'. subst x.
  apply list_elem_of_In, in_map_iff in Hx as (v & Hv & Hin).
  exact (Hne v Hin Hv).
Qed.

Lemma NoDup_map_remove {B} (f : User -> B) before u after :
  NoDup (List.map f (before ++ u :: after)) ->
  NoDup (List.map f (before ++ after))
  /\ forall v, In v (before ++ after) -> f v <> f u.
Proof.
  rewrite !List.map_app. cbn [List.map]. intros Hnd.
  apply NoDup_app in Hnd as (Hb & Hdisj & Ha).
  apply NoDup_cons in Ha as [Hu Ha]. split.
  - apply NoDup_app. split; [exact Hb|]. split; [|exact Ha].
    intros x Hx Hx'. apply (Hdisj x Hx). right. exact Hx'.
  - intros v Hv Heq. apply in_app_or in Hv as [Hv | Hv].
    + apply (Hdisj (f v)); [apply list_elem_of_In, in_map, Hv|].
      rewrite Heq. left.
    + apply Hu. rewrite <- Heq. apply list_elem_of_In, in_map, Hv.
Qed.

Lemma NoDup_map_insert {B} (f : User -> B) before u after :
  NoDup (List.map f (before ++ after)) ->
  (forall v, In v (before ++ after) -> f v <> f u) ->
  NoDup (List.map f (before ++ u :: after)).
Proof.
  rewrite !List.map_app. cbn [List.map]. intros Hnd Hne.
  apply NoDup_app in Hnd as (Hb & Hdisj & Ha).
  apply NoDup_app. split; [exact Hb|]. split.
  - intros x Hx Hx'. apply elem_of_cons in Hx' as [-> | Hx'].
    + apply list_elem_of_In, in_map_iff in Hx as (v & Hv & Hin).
      apply (Hne v); [apply in_or_app; left; exact Hin | exact Hv].
    + exact (Hdisj x Hx Hx').
  - apply NoDup_cons. split; [|exact Ha].
    intros Hx. apply list_elem_of_In, in_map_iff in Hx as (v & Hv & Hin).
    apply (Hne v); [apply in_or_app; right; exact Hin | exact Hv].
Qed.

Lemma NoDup_map_replace {B} (f : User -> B) before u u' after :
  f u' = f u ->
  NoDup (List.map f (before ++ u :: after)) ->
  NoDup (List.map f (before ++ u' :: after)).
Proof.
  intros Heq. rewrite !List.map_app. cbn [List.map]. rewrite Heq. auto.
Qed.

Lemma index_conflict_false u coll :
  List.existsb (index_conflict u) coll = false ->
  forall v, In v coll ->
  _id v <> _id u /\ username v <> username u /\ email v <> email u.
Proof.
  intros Hex v Hv.
  assert (Hc : index_conflict u v = false).
  { destruct (index_conflict u v) eqn:Hc; [|reflexivity].
    rewrite <- Hex. symmetry. apply existsb_exists. exists v. auto. }
  unfold index_conflict in Hc.
  apply orb_false_iff in Hc as [Hc Hmail].
  apply orb_false_iff in Hc as [Hid Hname].
  apply String.eqb_neq in Hid, Hname, Hmail. repeat split; congruence.
Qed.

Lemma unique_ok_handle e r st :
  unique_ok (users st) -> unique_ok (users (snd (handle e r st))).
Proof.
  intros Hu. destruct r; cbn [handle snd]; try exact Hu.
  - (* POST /register *)
    unfold post_register.
    destruct (check _ _ ++ _); [|exact Hu].
    destruct (User_findOne _ _); [exact Hu|].
    unfold User_create.
    destruct (negb (validate _)); [exact Hu|].
    destruct (existsb _ _) eqn:Hex; [exact Hu|].
    cbn [snd users]. destruct Hu as (Hid & Hname & Hmail).
    pose proof (index_conflict_false _ _ Hex) as Hne.
    repeat split; apply NoDup_map_snoc; try assumption;
      intros v Hv; apply (Hne v Hv).
  - (* POST /login *)
    unfold post_login.
    destruct (check _ _ ++ _); [|exact Hu].
    destruct (User_findOne _ _); [|exact Hu].
    destruct (negb _); exact Hu.
  - (* PUT /:id *)
    unfold put_user, User_findByIdAndUpdate.
    destruct (castObjectId id); [|exact Hu].
    destruct (split_first _ _) as [[[before u] after]|] eqn:Hs; [|exact Hu].
    destruct (existsb _ _) eqn:Hex; [exact Hu|].
    cbn [snd users].
    apply split_first_Some in Hs as (Hcoll & _). rewrite Hcoll in Hu.
    destruct Hu as (Hid & Hname & Hmail).
    repeat split; try (eapply NoDup_map_replace; [|eassumption]; reflexivity).
    apply NoDup_map_insert; [apply (NoDup_map_remove _ _ _ _ Hname)|].
    intros v Hv Heq. rewrite <- not_true_iff_false in Hex. apply Hex.
    apply existsb_exists. exists v. split; [exact Hv|].
    apply String.eqb_eq. exact Heq.
  - (* DELETE /:id *)
    unfold delete_user, User_findByIdAndDelete.
    destruct (castObjectId id); [|exact Hu].
    destruct (split_first _ _) as [[[before u] after]|] eqn:Hs; [|exact Hu].
    cbn [snd users].
    apply split_first_Some in Hs as (Hcoll & _). rewrite Hcoll in Hu.
    destruct Hu as (Hid & Hname & Hmail).
    repeat split; eapply NoDup_map_remove; eassumption.
  - (* POST /forgot-password *)
    unfold post_forgot_password.
    destruct (User_findOne _ _); [|exact Hu].
    destruct (mail_ok e); exact Hu.
  - (* POST /verify-otp *)
    rewrite verify_otp_state. exact Hu.
  - (* POST /reset-password *)
    unfold post_reset_password.
    destruct (negb _); [exact Hu|].
    cbn [snd users]. unfold User_updateOne_password.
    destruct (split_first _ _) as [[[before u] after]|] eqn:Hs; [|exact Hu].
    apply split_first_Some in Hs as (Hcoll & _). rewrite Hcoll in Hu.
    destruct Hu as (Hid & Hname & Hmail).
    repeat split; (eapply NoDup_map_replace; [|eassumption]; reflexivity).
Qed.

Lemma reachable_unique_ok st : reachable st -> unique_ok (users st).
Proof.
  induction 1 as [|e r st _ IH _].
  - repeat split; apply NoDup_nil; exact I.
  - apply (unique_ok_handle e r st IH).
Qed.

(** X1: in every state the server reaches, no two documents share an
    [_id], a username or an email. *)
Theorem reachable_unique st :
  reachable st ->
  NoDup (List.map _id (users st)) /\ NoDup (List.map username (users st))
  /\ NoDup (List.map email (users st)).
Proof.
  intros Hr. destruct (reachable_unique_ok st Hr) as (Hid & Hname & Hmail).
  split; [exact Hid|]. split; [exact Hname | exact Hmail].
Qed.

(** *** Stored passwords *)

Lemma hashed_ok_app coll1 coll2 :
  hashed_ok (coll1 ++ coll2) <-> hashed_ok coll1 /\ hashed_ok coll2.
Proof.
  unfold hashed_ok. split.
  - intros H. split; intros u Hu; apply H, in_or_app; auto.
  - intros [H1 H2] u Hu. apply in_app_or in Hu as [Hu | Hu]; auto.
Qed.

Lemma hashed_ok_cons u coll :
  hashed_ok (u :: coll)
  <-> (exists s pw, password u = cast_password (bcrypt_hash s pw))
      /\ hashed_ok coll.
Proof.
  unfold hashed_ok. split.
  - intros H. split; [apply H; left; reflexivity|].
    intros v Hv. apply H. right. exact Hv.
  - intros [H1 H2] v [<- | Hv]; auto.
Qed.

Lemma hashed_ok_handle e r st :
  hashed_ok (users st) -> hashed_ok (users (snd (handle e r st))).
Proof.
  intros Hu. destruct r; cbn [handle snd]; try exact Hu.
  - unfold post_register.
    destruct (check _ _ ++ _); [|exact Hu].
    destruct (User_findOne _ _); [exact Hu|].
    unfold User_create.
    destruct (negb (validate _)); [exact Hu|].
    destruct (existsb _ _); [exact Hu|].
    cbn [snd users]. apply hashed_ok_app. split; [exact Hu|].
    apply hashed_ok_cons. split; [|intros ? []].
    cbn [new_user password]. eauto.
  - unfold post_login.
    destruct (check _ _ ++ _); [|exact Hu].
    destruct (User_findOne _ _); [|exact Hu].
    destruct (negb _); exact Hu.
  - unfold put_user, User_findByIdAndUpdate.
    destruct (castObjectId id); [|exact Hu].
    destruct (split_first _ _) as [[[before u] after]|] eqn:Hs; [|exact Hu].
    destruct (existsb _ _); [exact Hu|].
    cbn [snd users].
    apply split_first_Some in Hs as (Hcoll & _). rewrite Hcoll in Hu.
    apply hashed_ok_app in Hu as [Hb Ha].
    apply hashed_ok_cons in Ha as [Hp Ha].
    apply hashed_ok_app. split; [exact Hb|].
    apply hashed_ok_cons. split; [exact Hp | exact Ha].
  - unfold delete_user, User_findByIdAndDelete.
    destruct (castObjectId id); [|exact Hu].
    destruct (split_first _ _) as [[[before u] after]|] eqn:Hs; [|exact Hu].
    cbn [snd users].
    apply split_first_Some in Hs as (Hcoll & _). rewrite Hcoll in Hu.
    apply hashed_ok_app in Hu as [Hb Ha].
    apply hashed_ok_cons in Ha as [_ Ha].
    apply hashed_ok_app. split; assumption.
  - unfold post_forgot_password.
    destruct (User_findOne _ _); [|exact Hu].
    destruct (mail_ok e); exact Hu.
  - rewrite verify_otp_state. exact Hu.
  - unfold post_reset_password.
    destruct (negb _); [exact Hu|].
    cbn [snd users]. unfold User_updateOne_password.
    destruct (split_first _ _) as [[[before u] after]|] eqn:Hs; [|exact Hu].
    apply split_first_Some in Hs as (Hcoll & _). rewrite Hcoll in Hu.
    apply hashed_ok_app in Hu as [Hb Ha].
    apply hashed_ok_cons in Ha as [_ Ha].
    apply hashed_ok_app. split; [exact Hb|].
    apply hashed_ok_cons. split; [|exact Ha].
    cbn [password]. eauto.
Qed.

(** X2: in every state the server reaches, the password of every stored
    document is what the schema makes of an output of [bcrypt.hash]: no
    handler stores a password it did not hash. *)
Theorem reachable_passwords_hashed st u :
  reachable st -> In u (users st) ->
  exists s pw, password u = cast_password (bcrypt_hash s pw).
Proof.
  intros Hr. revert u. change (hashed_ok (users st)).
  induction Hr as [|e r st _ IH _].
  - intros u [].
  - apply (hashed_ok_handle e r st IH).
Qed.

(** X3: in every state the server reaches, a code pending under a key is
    a string of six digits between 100000 and 999999, and the key is not
    a property name of [Object.prototype]. *)
Theorem reachable_pending_six_digits st mail code :
  reachable st -> pending st mail code ->
  String.length code = 6%nat /\ all_digits code = true
  /\ 100000 <= decimal_value 0 code <= 999999
  /\ mail ∉ Obj.prototype_names.
Proof using Type isEmail_not_inherited.
  intros Hr Hp. destruct (reachable_invariant st Hr) as [_ Ho].
  destruct (Ho mail code Hp) as (Hk & Hlen & Hdig & Hval).
  repeat split; solve [assumption | apply Hval].
Qed.

(** *** What each handler leaves alone *)

(** X4: only [/forgot-password] and [/reset-password] change [otpStore],
    and only [/register], [PUT /:id], [DELETE /:id] and [/reset-password]
    change the collection; login, the listings, [/verify-otp],
    [/verify-user] and the form pages change nothing. *)
Theorem handle_frame e r st :
  (writes_otpStore r = false -> otpStore (snd (handle e r st)) = otpStore st)
  /\ (writes_users r = false -> users (snd (handle e r st)) = users st).
Proof.
  split; intros Hw; destruct r; try discriminate Hw; cbn [handle snd];
    try reflexivity.
  - unfold post_register.
    destruct (check _ _ ++ _); [|reflexivity].
    destruct (User_findOne _ _); [reflexivity|].
    destruct (User_create _ _ _ _ _ _ _); reflexivity.
  - unfold post_login.
    destruct (check _ _ ++ _); [|reflexivity].
    destruct (User_findOne _ _); [|reflexivity].
    destruct (negb _); reflexivity.
  - unfold put_user.
    destruct (User_findByIdAndUpdate _ _ _ _ _ _) as [|[[] ?]]; reflexivity.
  - unfold delete_user.
    destruct (User_findByIdAndDelete _ _) as [|[[] ?]]; reflexivity.
  - rewrite verify_otp_state. reflexivity.
  - unfold post_login.
    destruct (check _ _ ++ _); [|reflexivity].
    destruct (User_findOne _ _); [|reflexivity].
    destruct (negb _); reflexivity.
  - unfold post_forgot_password.
    destruct (User_findOne _ _); [|reflexivity].
    destruct (mail_ok e); reflexivity.
  - rewrite verify_otp_state. reflexivity.
Qed.

(** *** No response carries a password *)

Lemma select_minus_absent name doc key v :
  In (key, v) (select_minus name doc) -> key <> name.
Proof.
  unfold select_minus. intros H. apply filter_In in H as [_ H].
  cbn [fst] in H. apply negb_true_iff, String.eqb_neq in H. exact H.
Qed.

Lemma find_minus_password_absent coll doc key v :
  In doc (User_find_minus_password coll) -> In (key, v) doc ->
  key <> "password"%string.
Proof.
  unfold User_find_minus_password. intros Hd Hk.
  apply in_map_iff in Hd as (u & <- & _).
  exact (select_minus_absent _ _ _ _ Hk).
Qed.

(** X5: whatever the request and the state, no document in the response
    (the JSON of [GET /] and [PUT /:id], the users handed to the home
    page by [GET /home] and [/verify-user]) has a field named
    [password]. *)
Theorem responses_hide_password e r st doc key v :
  In doc (documents_of (fst (handle e r st))) -> In (key, v) doc ->
  key <> "password"%string.
Proof.
  destruct r; cbn [handle fst].
  1-4: intros [].
  - unfold post_register.
    destruct (check _ _ ++ _); [|intros []].
    destruct (User_findOne _ _); [intros []|].
    destruct (User_create _ _ _ _ _ _ _); intros [].
  - unfold post_login.
    destruct (check _ _ ++ _); [|intros []].
    destruct (User_findOne _ _); [|intros []].
    destruct (negb _); intros [].
  - cbn. apply find_minus_password_absent.
  - cbn. apply find_minus_password_absent.
  - unfold put_user.
    destruct (User_findByIdAndUpdate _ _ _ _ _ _) as [|[[u|] ?]];
      cbn [fst documents_of]; [intros []| |intros []].
    intros [<- | []]. apply select_minus_absent.
  - unfold delete_user.
    destruct (User_findByIdAndDelete _ _) as [|[[] ?]]; intros [].
  - unfold post_forgot_password.
    destruct (User_findOne _ _); [|intros []].
    destruct (mail_ok e); intros [].
  - unfold post_verify_otp. destruct (negb _); intros [].
  - unfold post_reset_password. destruct (negb _); intros [].
  - cbn. apply find_minus_password_absent.
Qed.

(** *** What is fixed at registration *)

(** X6: a document in the collection after a request is either the one
    [/register] has just created, or a document that was there before
    with the same [_id], the same email and the same [createdAt]: no
    handler changes the email of an account. *)
Theorem handle_keeps_identity e r st u' :
  In u' (users (snd (handle e r st))) ->
  (exists u, In u (users st) /\ _id u' = _id u /\ email u' = email u
             /\ createdAt u' = createdAt u)
  \/ (exists uname mail pw ph prof,
        r = PostRegister uname mail pw ph prof
        /\ u' = new_user e (trim uname) (trim mail)
                  (bcrypt_hash (salt e) (trim pw)) (trim ph) (trim prof)).
Proof.
  assert (Hsame : In u' (users st) ->
            exists u, In u (users st) /\ _id u' = _id u /\ email u' = email u
                      /\ createdAt u' = createdAt u) by eauto.
  assert (Hrepl : forall before u v after,
            users st = before ++ u :: after ->
            _id v = _id u -> email v = email u -> createdAt v = createdAt u ->
            In u' (before ++ v :: after) ->
            exists u, In u (users st) /\ _id u' = _id u /\ email u' = email u
                      /\ createdAt u' = createdAt u).
  { intros before u v after Hcoll Hi Hm Hc Hin. rewrite Hcoll.
    apply in_app_or in Hin as [Hin | [<- | Hin]].
    - exists u'. split; [apply in_or_app; left; exact Hin | auto].
    - exists u. split; [apply in_elt | auto].
    - exists u'. split; [apply in_or_app; right; right; exact Hin | auto]. }
  destruct r; cbn [handle snd]; try (intros H; left; exact (Hsame H)).
  - unfold post_register.
    destruct (check _ _ ++ _); [|intros H; left; exact (Hsame H)].
    destruct (User_findOne _ _); [intros H; left; exact (Hsame H)|].
    unfold User_create.
    destruct (negb (validate _)); [intros H; left; exact (Hsame H)|].
    destruct (existsb _ _); [intros H; left; exact (Hsame H)|].
    cbn [snd users]. intros H. apply in_app_or in H as [H | [<- | []]].
    + left. exact (Hsame H).
    + right. do 5 eexists. split; reflexivity.
  - unfold post_login.
    destruct (check _ _ ++ _); [|intros H; left; exact (Hsame H)].
    destruct (User_findOne _ _); [|intros H; left; exact (Hsame H)].
    destruct (negb _); intros H; left; exact (Hsame H).
  - unfold put_user, User_findByIdAndUpdate.
    destruct (castObjectId id); [|intros H; left; exact (Hsame H)].
    destruct (split_first _ _) as [[[before u] after]|] eqn:Hs;
      [|intros H; left; exact (Hsame H)].
    destruct (existsb _ _); [intros H; left; exact (Hsame H)|].
    cbn [snd users]. apply split_first_Some in Hs as (Hcoll & _).
    intros H. left. eapply Hrepl; [exact Hcoll | | | | exact H]; reflexivity.
  - unfold delete_user, User_findByIdAndDelete.
    destruct (castObjectId id); [|intros H; left; exact (Hsame H)].
    destruct (split_first _ _) as [[[before u] after]|] eqn:Hs;
      [|intros H; left; exact (Hsame H)].
    cbn [snd users]. apply split_first_Some in Hs as (Hcoll & _).
    intros H. left. apply Hsame. rewrite Hcoll.
    apply in_app_or in H as [H | H]; apply in_or_app; [left | right; right];
      exact H.
  - unfold post_forgot_password.
    destruct (User_findOne _ _); [|intros H; left; exact (Hsame H)].
    destruct (mail_ok e); intros H; left; exact (Hsame H).
  - rewrite verify_otp_state. intros H; left; exact (Hsame H).
  - unfold post_reset_password.
    destruct (negb _); [intros H; left; exact (Hsame H)|].
    cbn [snd users]. unfold User_updateOne_password.
    destruct (split_first _ _) as [[[before u] after]|] eqn:Hs;
      [|intros H; left; exact (Hsame H)].
    apply split_first_Some in Hs as (Hcoll & _).
    intros H. left. eapply Hrepl; [exact Hcoll | | | | exact H]; reflexivity.
Qed.


(** *** Deleting *)

Lemma split_first_none_iff p coll :
  split_first p coll = None <-> forall v, In v coll -> p v = false.
Proof.
  split; [apply split_first_None|].
  induction coll as [|w coll IH]; intros H; [reflexivity|].
  cbn. rewrite (H w (or_introl eq_refl)).
  rewrite IH; [reflexivity|]. intros v Hv. apply H. right. exact Hv.
Qed.

(** X7: in a reachable state, [DELETE /:id] with the id of a stored
    document answers 200 and removes that document and no other; asked
    again with the same id, it answers 404. *)
Theorem delete_user_removes id i st :
  reachable st ->
  castObjectId id = Some i ->
  (exists u, In u (users st) /\ _id u = i) ->
  fst (delete_user id st) = Json 200 (Message "User deleted successfully")
  /\ (forall v, In v (users (snd (delete_user id st)))
                <-> In v (users st) /\ _id v <> i)
  /\ otpStore (snd (delete_user id st)) = otpStore st
  /\ fst (delete_user id (snd (delete_user id st)))
     = Json 404 (Message "User not found").
Proof.
  intros Hr Hid (u0 & Hin0 & Hu0).
  destruct (reachable_unique_ok st Hr) as (Hnd & _).
  destruct (split_first (by_id i) (users st)) as [[[before u] after]|] eqn:Hs.
  - assert (Heq : delete_user id st
                  = (Json 200 (Message "User deleted successfully"),
                     mkServer (before ++ after) (otpStore st))).
    { unfold delete_user, User_findByIdAndDelete. rewrite Hid, Hs. reflexivity. }
    apply split_first_Some in Hs as (Hcoll & Hu & _).
    unfold by_id in Hu. apply String.eqb_eq in Hu.
    rewrite Hcoll in Hnd. apply NoDup_map_remove in Hnd as [_ Hne].
    rewrite Heq. cbn [fst snd users otpStore].
    assert (Hmem : forall v, In v (before ++ after)
                             <-> In v (users st) /\ _id v <> i).
    { intros v. rewrite Hcoll. split.
      - intros Hv. split; [|rewrite <- Hu; exact (Hne v Hv)].
        apply in_app_or in Hv as [Hv | Hv]; apply in_or_app;
          [left | right; right]; exact Hv.
      - intros [Hv Hvi]. apply in_app_or in Hv as [Hv | [<- | Hv]];
          [apply in_or_app; left; exact Hv | contradiction
          | apply in_or_app; right; exact Hv]. }
    split; [reflexivity|]. split; [exact Hmem|]. split; [reflexivity|].
    unfold delete_user, User_findByIdAndDelete. cbn [users]. rewrite Hid.
    assert (Hnone : split_first (by_id i) (before ++ after) = None).
    { apply split_first_none_iff. intros v Hv. apply String.eqb_neq.
      rewrite <- Hu. exact (Hne v Hv). }
    rewrite Hnone. reflexivity.
  - exfalso. pose proof (split_first_None _ _ Hs u0 Hin0) as Hf.
    unfold by_id in Hf. rewrite Hu0, String.eqb_refl in Hf. discriminate.
Qed.

(** *** Resetting *)

(** X8: [/reset-password] changes, in the collection, at most the
    [password] and [updatedAt] of documents, and leaves as it is every
    document whose email is not the one asked for; when it goes through
    and a user has the email, that user's password is then the hash of
    the new one. *)
Theorem reset_password_frame e mail pw st :
  Forall2
    (fun u u' =>
       same_but_password u u' /\ (email u <> cast_email mail -> u' = u))
    (users st) (users (snd (post_reset_password e mail pw st)))
  /\ (fst (post_reset_password e mail pw st) = Redirect "/users/login" ->
      forall u, User_findOne (by_email mail) (users st) = Some u ->
      exists u',
        In u' (users (snd (post_reset_password e mail pw st)))
        /\ _id u' = _id u
        /\ password u' = cast_password (bcrypt_hash (salt e) pw)
        /\ updatedAt u' = now e).
Proof.
  set (R := fun u u' : User =>
              same_but_password u u' /\ (email u <> cast_email mail -> u' = u)).
  assert (HR : forall x, R x x).
  { intros x. unfold R, same_but_password. prop. }
  unfold post_reset_password.
  destruct (negb _); cbn [fst snd users];
    [split; [apply Forall2_same, HR | discriminate]|].
  unfold User_updateOne_password. rewrite findOne_split_first.
  destruct (split_first (by_email mail) (users st))
    as [[[before u] after]|] eqn:Hs;
    [|split; [apply Forall2_same, HR | discriminate]].
  apply split_first_Some in Hs as (Hcoll & Hu & _).
  unfold by_email in Hu. apply String.eqb_eq in Hu. split.
  - rewrite Hcoll. apply Forall2_replace; [exact HR|].
    split; [unfold same_but_password; cbn; prop|].
    intros Hne. contradiction.
  - intros _ u1 [= <-]. eexists. split; [apply in_elt|].
    cbn. repeat split; reflexivity.
Qed.

Lemma updateOne_no_user e mail pw coll :
  User_findOne (by_email mail) coll = None ->
  User_updateOne_password e mail pw coll = coll.
Proof.
  rewrite findOne_split_first. unfold User_updateOne_password.
  destruct (split_first _ _) as [[[before u] after]|];
    [discriminate | reflexivity].
Qed.

(** X9: in a reachable state, with a code pending for an email that no
    user has any more (the account was deleted after the code was
    issued), [/reset-password] still redirects to the login page: it
    consumes the code and changes no document. *)
Theorem reset_password_without_user e mail pw code st :
  reachable st -> pending st mail code ->
  User_findOne (by_email mail) (users st) = None ->
  post_reset_password e mail pw st
  = (Redirect "/users/login",
     mkServer (users st) (base.delete mail (otpStore st))).
Proof using Type isEmail_not_inherited.
  intros Hr Hp Hnone.
  destruct (reachable_invariant st Hr) as [_ Ho].
  destruct (Ho mail code Hp) as [_ Hotp].
  rewrite (reset_password_pending e mail pw code st Hp
             (is_otp_nonempty code Hotp)).
  rewrite updateOne_no_user by exact Hnone. reflexivity.
Qed.

(** *** Logging in *)

(** X10: [/login] answers 200 exactly when the trimmed email passes
    [isEmail], the trimmed password has five characters or more, a user
    has the email and [bcrypt.compare] accepts the trimmed password
    against that user's stored hash; it never changes the state. *)
Theorem login_success_iff mail pw st :
  (fst (post_login mail pw st) = Json 200 (Message "Login successful")
   <-> isEmail (trim mail) = true /\ minlength 5 (trim pw) = true
       /\ exists user,
            User_findOne (by_email (trim mail)) (users st) = Some user
            /\ bcrypt_compare (trim pw) (password user) = true)
  /\ snd (post_login mail pw st) = st.
Proof.
  unfold post_login.
  destruct (isEmail (trim mail)) eqn:Hm; cbn [check app];
    [|split; [split; [discriminate | intros [[=] _]] | reflexivity]].
  destruct (minlength 5 (trim pw)) eqn:Hp; cbn [check app];
    [|split; [split; [discriminate | intros (_ & [=] & _)] | reflexivity]].
  destruct (User_findOne _ _) as [user|] eqn:Hf;
    [|split; [split; [discriminate | intros (_ & _ & ? & [=] & _)]
             | reflexivity]].
  destruct (bcrypt_compare (trim pw) (password user)) eqn:Hc; cbn [negb fst].
  - split; [|reflexivity]. split; [|reflexivity].
    intros _. do 2 (split; [reflexivity|]). exists user. split; auto.
  - split; [|reflexivity]. split; [discriminate|].
    intros (_ & _ & user' & [= <-] & Hc'). congruence.
Qed.

Lemma find_snoc (p : User -> bool) coll u :
  (forall v, In v coll -> p v = false) -> p u = true ->
  List.find p (coll ++ [u]) = Some u.
Proof.
  intros Hnone Hu. induction coll as [|w coll IH]; cbn.
  - rewrite Hu. reflexivity.
  - rewrite (Hnone w (or_introl eq_refl)). apply IH.
    intros v Hv. apply Hnone. right. exact Hv.
Qed.

(** X11: if [bcrypt.compare] accepts a password against the stored form
    of its own hash, a registration that redirects to the login page is
    followed by a successful login with the same email and password. *)
Theorem register_then_login e uname mail pw ph prof st :
  (forall s d, bcrypt_compare d (cast_password (bcrypt_hash s d)) = true) ->
  fst (post_register e uname mail pw ph prof st) = Redirect "/users/login" ->
  fst (post_login mail pw (snd (post_register e uname mail pw ph prof st)))
  = Json 200 (Message "Login successful").
Proof.
  intros Hrt. unfold post_register.
  destruct (isEmail (trim mail)) eqn:Hm; cbn [check app]; [|discriminate].
  destruct (minlength 5 (trim pw)) eqn:Hp; cbn [check app]; [|discriminate].
  destruct (check _ _ ++ _); [|discriminate].
  destruct (User_findOne (by_email_or_phone _ _) _) eqn:Hf; [discriminate|].
  unfold User_create.
  destruct (negb (validate _)); [discriminate|].
  destruct (existsb _ _); [discriminate|].
  intros _. cbn [snd]. unfold post_login. rewrite Hm, Hp. cbn [check app users].
  unfold User_findOne. rewrite find_snoc; [..|apply String.eqb_refl].
  - cbn [new_user password]. rewrite Hrt. reflexivity.
  - intros v Hv. unfold User_findOne in Hf.
    pose proof (find_none _ _ Hf v Hv) as Hv'.
    unfold by_email_or_phone in Hv'. apply orb_false_iff in Hv' as [Hv' _].
    exact Hv'.
Qed.

Lemma find_ext (p q : User -> bool) coll :
  (forall v, p v = q v) -> List.find p coll = List.find q coll.
Proof.
  intros H. induction coll as [|w coll IH]; [reflexivity|].
  cbn. rewrite H, IH. reflexivity.
Qed.

Lemma find_middle (p : User -> bool) before u after :
  (forall v, In v before -> p v = false) -> p u = true ->
  List.find p (before ++ u :: after) = Some u.
Proof.
  intros Hnone Hu. induction before as [|w before IH]; cbn.
  - rewrite Hu. reflexivity.
  - rewrite (Hnone w (or_introl eq_refl)). apply IH.
    intros v Hv. apply Hnone. right. exact Hv.
Qed.

(** X12: under the same assumption on bcrypt, after a [/reset-password]
    that went through for an email a user has, a login succeeds with an
    email cast to the same value and a password whose trimmed form is
    the password that was given to the reset. *)
Theorem reset_then_login e mail pw mail2 pw2 st u :
  (forall s d, bcrypt_compare d (cast_password (bcrypt_hash s d)) = true) ->
  fst (post_reset_password e mail pw st) = Redirect "/users/login" ->
  User_findOne (by_email mail) (users st) = Some u ->
  isEmail (trim mail2) = true -> minlength 5 (trim pw2) = true ->
  cast_email (trim mail2) = cast_email mail -> trim pw2 = pw ->
  fst (post_login mail2 pw2 (snd (post_reset_password e mail pw st)))
  = Json 200 (Message "Login successful").
Proof.
  intros Hrt Hok Hf Hm Hp Hcast Hpw. unfold post_reset_password in *.
  destruct (negb _); [discriminate Hok|]. cbn [snd].
  unfold post_login. rewrite Hm, Hp. cbn [check app users].
  unfold User_updateOne_password. rewrite findOne_split_first in Hf.
  destruct (split_first (by_email mail) (users st))
    as [[[before u1] after]|] eqn:Hs; [|discriminate Hf].
  injection Hf as ->.
  apply split_first_Some in Hs as (_ & Hu & Hb).
  unfold User_findOne.
  rewrite (find_ext (by_email (trim mail2)) (by_email mail))
    by (intros v; unfold by_email; rewrite Hcast; reflexivity).
  rewrite find_middle; [|exact Hb|exact Hu].
  cbn [password]. rewrite Hpw, Hrt. reflexivity.
Qed.


(** *** Registering *)

Lemma existsb_index_conflict_iff d coll :
  List.existsb (index_conflict d) coll = false
  <-> forall v, In v coll ->
      _id v <> _id d /\ username v <> username d /\ email v <> email d.
Proof.
  split; [apply index_conflict_false|].
  intros H. apply not_true_iff_false. intros Hex.
  apply existsb_exists in Hex as (v & Hv & Hc).
  destruct (H v Hv) as (Hid & Hname & Hmail).
  unfold index_conflict in Hc.
  apply orb_true_iff in Hc as [Hc | Hc];
    [apply orb_true_iff in Hc as [Hc | Hc]|];
    apply String.eqb_eq in Hc; congruence.
Qed.

Lemma findOne_none_iff p coll :
  User_findOne p coll = None <-> forall v, In v coll -> p v = false.
Proof.
  rewrite findOne_split_first, <- split_first_none_iff.
  destruct (split_first p coll) as [[[b v] a]|]; split; congruence.
Qed.

(** X13: [/register] redirects to the login page exactly when the five
    validators pass, the document passes the schema's validators, and no
    stored document has the generated [_id], the username, the email or
    the phone; it then appends that one document, with the hash as its
    password, and in every other case it leaves the state as it was. *)
Theorem register_success_iff e uname mail pw ph prof st :
  let u := new_user e (trim uname) (trim mail) (bcrypt_hash (salt e) (trim pw))
             (trim ph) (trim prof) in
  (fst (post_register e uname mail pw ph prof st) = Redirect "/users/login"
   <-> isEmail (trim mail) = true /\ minlength 5 (trim pw) = true
       /\ minlength 3 (trim uname) = true /\ minlength 10 (trim ph) = true
       /\ nonempty (trim prof) = true /\ validate u = true
       /\ forall v, In v (users st) ->
          _id v <> _id u /\ username v <> username u /\ email v <> email u
          /\ phone v <> phone u)
  /\ (fst (post_register e uname mail pw ph prof st) = Redirect "/users/login" ->
      snd (post_register e uname mail pw ph prof st)
      = mkServer (users st ++ [u]) (otpStore st))
  /\ (fst (post_register e uname mail pw ph prof st) <> Redirect "/users/login" ->
      snd (post_register e uname mail pw ph prof st) = st).
Proof.
  intros u. unfold post_register.
  destruct (isEmail (trim mail)); cbn [check app];
    [|split; [split; [discriminate | intros ([=] & _)] | split;
             [discriminate | reflexivity]]].
  destruct (minlength 5 (trim pw)); cbn [check app];
    [|split; [split; [discriminate | intros (_ & [=] & _)] | split;
             [discriminate | reflexivity]]].
  destruct (minlength 3 (trim uname)); cbn [check app];
    [|split; [split; [discriminate | intros (_ & _ & [=] & _)] | split;
             [discriminate | reflexivity]]].
  destruct (minlength 10 (trim ph)); cbn [check app];
    [|split; [split; [discriminate | intros (_ & _ & _ & [=] & _)] | split;
             [discriminate | reflexivity]]].
  destruct (nonempty (trim prof)); cbn [check app];
    [|split; [split; [discriminate | intros (_ & _ & _ & _ & [=] & _)] | split;
             [discriminate | reflexivity]]].
  destruct (User_findOne _ _) as [w|] eqn:Hf.
  { split; [|split; [discriminate | reflexivity]].
    split; [discriminate|]. intros (_ & _ & _ & _ & _ & _ & Hall). exfalso.
    apply findOne_Some in Hf as [Hw Hp].
    destruct (Hall w Hw) as (_ & _ & Hmail & Hphone).
    unfold by_email_or_phone, by_email, by_phone in Hp.
    apply orb_true_iff in Hp as [Hp | Hp]; apply String.eqb_eq in Hp;
      [apply Hmail | apply Hphone]; exact Hp. }
  pose proof (proj1 (findOne_none_iff _ _) Hf) as Hnone.
  unfold User_create. fold u.
  destruct (validate u); cbn [negb];
    [|split; [split; [discriminate | intros (_ & _ & _ & _ & _ & [=] & _)]
             | split; [discriminate | reflexivity]]].
  destruct (existsb (index_conflict u) (users st)) eqn:Hex.
  { split; [|split; [discriminate | reflexivity]].
    split; [discriminate|]. intros (_ & _ & _ & _ & _ & _ & Hall). exfalso.
    rewrite <- not_false_iff_true in Hex. apply Hex.
    apply existsb_index_conflict_iff. intros v Hv.
    destruct (Hall v Hv) as (? & ? & ? & _). auto. }
  cbn [fst snd]. split; [|split; [reflexivity | congruence]].
  split; [|reflexivity]. intros _. do 6 (split; [reflexivity|]).
  intros v Hv.
  destruct (index_conflict_false _ _ Hex v Hv) as (Hid & Hname & Hmail).
  do 3 (split; [assumption|]).
  pose proof (Hnone v Hv) as Hp.
  unfold by_email_or_phone in Hp. apply orb_false_iff in Hp as [_ Hp].
  unfold by_phone in Hp. apply String.eqb_neq in Hp. exact Hp.
Qed.

(** X14: a registration that passes every validator with a new email and
    a new phone but a username some stored document already has is
    refused by the unique index, and answered "Server error, please try
    again"; nothing is stored. *)
Theorem register_username_taken e uname mail pw ph prof st v :
  isEmail (trim mail) = true -> minlength 5 (trim pw) = true ->
  minlength 3 (trim uname) = true -> minlength 10 (trim ph) = true ->
  nonempty (trim prof) = true ->
  User_findOne (by_email_or_phone (trim mail) (trim ph)) (users st) = None ->
  In v (users st) -> username v = cast_username (trim uname) ->
  exists oldInput,
    post_register e uname mail pw ph prof st
    = (Render "register" ["Server error, please try again"%string] oldInput, st).
Proof.
  intros H1 H2 H3 H4 H5 Hf Hv Hname. unfold post_register.
  rewrite H1, H2, H3, H4, H5. cbn [check app]. rewrite Hf.
  unfold User_create.
  destruct (negb (validate _)); [eexists; reflexivity|].
  rewrite (existsb_index_conflict _ (users st) v Hv);
    [eexists; reflexivity|].
  right. exact Hname.
Qed.

(** *** Updating and deleting: the refusals *)

(** X15: in a reachable state, [PUT /:id] for the id of a stored document
    answers 500 "Server error" exactly when another document already has
    the username asked for, and then changes nothing. *)
Theorem put_user_username_taken e id i uname ph prof st u :
  reachable st -> castObjectId id = Some i -> In u (users st) -> _id u = i ->
  (fst (put_user e id uname ph prof st) = Json 500 (Message "Server error")
   <-> exists v, In v (users st) /\ _id v <> i
                 /\ username v = cast_username uname)
  /\ (fst (put_user e id uname ph prof st) = Json 500 (Message "Server error")
      -> snd (put_user e id uname ph prof st) = st).
Proof.
  intros Hr Hid Hu Hui.
  destruct (reachable_unique_ok st Hr) as (Hnd & _).
  unfold put_user, User_findByIdAndUpdate. rewrite Hid.
  destruct (split_first (by_id i) (users st)) as [[[before u1] after]|] eqn:Hs.
  - apply split_first_Some in Hs as (Hcoll & Hu1 & _).
    unfold by_id in Hu1. apply String.eqb_eq in Hu1.
    rewrite Hcoll in Hnd. apply NoDup_map_remove in Hnd as [_ Hne].
    assert (Hothers : forall v, In v (before ++ after)
                                <-> In v (users st) /\ _id v <> i).
    { intros v. rewrite Hcoll. split.
      - intros Hv. split; [|rewrite <- Hu1; exact (Hne v Hv)].
        apply in_app_or in Hv as [Hv | Hv]; apply in_or_app;
          [left | right; right]; exact Hv.
      - intros [Hv Hvi]. apply in_app_or in Hv as [Hv | [<- | Hv]];
          [apply in_or_app; left; exact Hv | contradiction
          | apply in_or_app; right; exact Hv]. }
    cbn [username].
    destruct (existsb _ (before ++ after)) eqn:Hex; cbn [fst snd].
    + split; [|reflexivity]. split; [|reflexivity]. intros _.
      apply existsb_exists in Hex as (v & Hv & Heq).
      apply String.eqb_eq in Heq. apply Hothers in Hv as [Hv Hvi].
      exists v. auto.
    + split; [|discriminate]. split; [discriminate|].
      intros (v & Hv & Hvi & Heq). exfalso.
      rewrite <- not_true_iff_false in Hex. apply Hex.
      apply existsb_exists. exists v. split; [apply Hothers; auto|].
      apply String.eqb_eq. exact Heq.
  - exfalso. pose proof (split_first_None _ _ Hs u Hu) as Hf.
    unfold by_id in Hf. rewrite Hui, String.eqb_refl in Hf. discriminate.
Qed.

(** X16: an id that is not an ObjectId is answered 500 by [PUT /:id] and
    [DELETE /:id], and an ObjectId no stored document has is answered
    404 by both; neither changes the state. *)
Theorem unknown_id_refused e id uname ph prof st :
  (castObjectId id = None ->
   put_user e id uname ph prof st = (Json 500 (Message "Server error"), st)
   /\ delete_user id st = (Json 500 (Message "Server error"), st))
  /\ (forall i, castObjectId id = Some i ->
      (forall v, In v (users st) -> _id v <> i) ->
      put_user e id uname ph prof st = (Json 404 (Message "User not found"), st)
      /\ delete_user id st = (Json 404 (Message "User not found"), st)).
Proof.
  unfold put_user, delete_user, User_findByIdAndUpdate, User_findByIdAndDelete.
  split.
  - intros ->. split; reflexivity.
  - intros i -> Hnone.
    assert (Hs : split_first (by_id i) (users st) = None).
    { apply split_first_none_iff. intros v Hv. apply String.eqb_neq.
      exact (Hnone v Hv). }
    rewrite Hs. split; reflexivity.
Qed.

(** *** Verifying a user *)

(** X17: [/verify-user] says "User verified!" exactly when at least one
    of email and phone is a non-empty string and some stored document
    matches every one that is; it always hands the home page the users
    without passwords, and changes nothing. *)
Theorem verify_user_iff mail ph st :
  exists msg,
    post_verify_user mail ph st
    = (RenderHome (User_find_minus_password (users st)) (Some msg), st)
    /\ (msg = "User verified!"%string
        \/ msg = "User not found or details incorrect."%string)
    /\ (msg = "User verified!"%string
        <-> (mail <> ""%string \/ ph <> ""%string)
            /\ exists u, In u (users st)
                 /\ (mail <> ""%string -> email u = cast_email mail)
                 /\ (ph <> ""%string -> phone u = cast_phone ph)).
Proof.
  unfold post_verify_user, nonempty.
  assert (Hfind : forall p : User -> bool,
            (exists u, User_findOne p (users st) = Some u
                       /\ In u (users st) /\ p u = true)
            \/ (User_findOne p (users st) = None
                /\ forall u, In u (users st) -> p u = false)).
  { intros p. destruct (User_findOne p (users st)) as [u|] eqn:Hf.
    - left. exists u. split; [reflexivity|]. apply findOne_Some, Hf.
    - right. split; [reflexivity|]. apply findOne_none_iff, Hf. }
  destruct (String.eqb_spec mail "") as [Hm | Hm];
    destruct (String.eqb_spec ph "") as [Hp | Hp]; cbn [negb andb].
  - eexists. split; [reflexivity|]. split; [right; reflexivity|].
    split; [discriminate|]. intros [[H | H] _]; contradiction.
  - destruct (Hfind (by_phone ph)) as [(u & -> & Hin & Hu) | [-> Hnone]];
      (eexists; split; [reflexivity|]).
    + split; [left; reflexivity|]. split; [|reflexivity]. intros _.
      split; [right; exact Hp|]. exists u. split; [exact Hin|].
      split; [intros; contradiction|]. intros _.
      unfold by_phone in Hu. apply String.eqb_eq, Hu.
    + split; [right; reflexivity|]. split; [discriminate|].
      intros (_ & u & Hin & _ & Hu). exfalso.
      pose proof (Hnone u Hin) as Hf. unfold by_phone in Hf.
      rewrite (Hu Hp), String.eqb_refl in Hf. discriminate.
  - destruct (Hfind (by_email mail)) as [(u & -> & Hin & Hu) | [-> Hnone]];
      (eexists; split; [reflexivity|]).
    + split; [left; reflexivity|]. split; [|reflexivity]. intros _.
      split; [left; exact Hm|]. exists u. split; [exact Hin|].
      split; [|intros; contradiction]. intros _.
      unfold by_email in Hu. apply String.eqb_eq, Hu.
    + split; [right; reflexivity|]. split; [discriminate|].
      intros (_ & u & Hin & Hu & _). exfalso.
      pose proof (Hnone u Hin) as Hf. unfold by_email in Hf.
      rewrite (Hu Hm), String.eqb_refl in Hf. discriminate.
  - destruct (Hfind (by_email_and_phone mail ph))
      as [(u & -> & Hin & Hu) | [-> Hnone]];
      (eexists; split; [reflexivity|]).
    + split; [left; reflexivity|]. split; [|reflexivity]. intros _.
      split; [left; exact Hm|]. exists u. split; [exact Hin|].
      unfold by_email_and_phone, by_email, by_phone in Hu.
      apply andb_true_iff in Hu as [Hu1 Hu2].
      apply String.eqb_eq in Hu1, Hu2. auto.
    + split; [right; reflexivity|]. split; [discriminate|].
      intros (_ & u & Hin & Hu1 & Hu2). exfalso.
      pose proof (Hnone u Hin) as Hf.
      unfold by_email_and_phone, by_email, by_phone in Hf.
      rewrite (Hu1 Hm), (Hu2 Hp), !String.eqb_refl in Hf. discriminate.
Qed.

(** *** Codes in [otpStore] *)

Lemma get_lookup o o' k :
  o' !! k = o !! k -> Obj.get o' k = Obj.get o k.
Proof. unfold Obj.get. intros ->. reflexivity. Qed.

Lemma set_other o k v k' : k' <> k -> Obj.set o k v !! k' = o !! k'.
Proof.
  intros Hne. unfold Obj.set. destruct (bool_decide _); [reflexivity|].
  apply lookup_insert_ne. congruence.
Qed.

(** X18: [/forgot-password] never changes the collection, and in
    [otpStore] it touches no key but the email as it was spelled in the
    request: [/verify-otp] under any other spelling answers as it did
    before.  For an email no user has, it answers "Email not found" and
    changes nothing. *)
Theorem forgot_password_frame e mail st :
  users (snd (post_forgot_password e mail st)) = users st
  /\ (forall k, k <> mail ->
      otpStore (snd (post_forgot_password e mail st)) !! k = otpStore st !! k)
  /\ (forall mail' otp, mail' <> mail ->
      fst (post_verify_otp (Some mail') otp (snd (post_forgot_password e mail st)))
      = fst (post_verify_otp (Some mail') otp st))
  /\ (User_findOne (by_email mail) (users st) = None ->
      post_forgot_password e mail st
      = (Render "forgot-password" ["Email not found"%string]
           [("email"%string, Some mail)], st)).
Proof.
  assert (Hk : forall k, k <> mail ->
            otpStore (snd (post_forgot_password e mail st)) !! k
            = otpStore st !! k).
  { intros k Hne. unfold post_forgot_password.
    destruct (User_findOne _ _); [|reflexivity].
    destruct (mail_ok e); cbn [snd otpStore]; apply set_other, Hne. }
  split; [|split; [exact Hk|split]].
  - unfold post_forgot_password.
    destruct (User_findOne _ _); [|reflexivity].
    destruct (mail_ok e); reflexivity.
  - intros mail' otp Hne. unfold post_verify_otp. cbn [to_key].
    rewrite (get_lookup _ _ _ (Hk mail' Hne)).
    destruct (negb _); reflexivity.
  - intros Hnone. unfold post_forgot_password. rewrite Hnone. reflexivity.
Qed.

(** X19: in a reachable state, once [/reset-password] has gone through
    for an email with a pending code, [/verify-otp] answers "Invalid
    OTP" for that email whatever code is submitted, the consumed one
    included. *)
Theorem used_code_no_longer_verifies e mail pw code code' st :
  reachable st -> pending st mail code ->
  fst (post_verify_otp (Some mail) (Some code')
         (snd (post_reset_password e mail pw st)))
  = InvalidCode (Some mail).
Proof using Type isEmail_not_inherited.
  intros Hr Hp.
  destruct (reachable_invariant st Hr) as [_ Ho].
  destruct (Ho mail code Hp) as [_ Hotp].
  rewrite (reset_password_pending e mail pw code st Hp
             (is_otp_nonempty code Hotp)).
  cbn [snd]. apply verify_otp_invalid. unfold pending. cbn [otpStore].
  rewrite lookup_delete_eq. discriminate.
Qed.

Lemma handle_keeps_key e r st mail :
  (forall m, r = PostForgotPassword m -> m <> mail) ->
  (forall m pw, r = PostResetPassword m pw -> m <> mail) ->
  otpStore (snd (handle e r st)) !! mail = otpStore st !! mail.
Proof.
  intros Hforgot Hreset.
  destruct (writes_otpStore r) eqn:Hw.
  - destruct r; try discriminate Hw; cbn [handle].
    + specialize (Hforgot _ eq_refl). unfold post_forgot_password.
      destruct (User_findOne _ _); [|reflexivity].
      destruct (mail_ok e); cbn [snd otpStore]; apply set_other; congruence.
    + specialize (Hreset _ _ eq_refl). unfold post_reset_password.
      destruct (negb _); [reflexivity|]. cbn [snd otpStore].
      unfold Obj.delete. apply lookup_delete_ne. exact Hreset.
  - destruct r; try discriminate Hw; cbn [handle snd]; try reflexivity.
    + unfold post_register.
      destruct (check _ _ ++ _); [|reflexivity].
      destruct (User_findOne _ _); [reflexivity|].
      destruct (User_create _ _ _ _ _ _ _); reflexivity.
    + unfold post_login.
      destruct (check _ _ ++ _); [|reflexivity].
      destruct (User_findOne _ _); [|reflexivity].
      destruct (negb _); reflexivity.
    + unfold put_user.
      destruct (User_findByIdAndUpdate _ _ _ _ _ _) as [|[[] ?]]; reflexivity.
    + unfold delete_user.
      destruct (User_findByIdAndDelete _ _) as [|[[] ?]]; reflexivity.
    + rewrite verify_otp_state. reflexivity.
Qed.

(** X20: a pending code does not expire: after any sequence of requests
    among which there is no [/forgot-password] and no [/reset-password]
    for that very email, whatever happened to the account meanwhile,
    [otpStore] holds for the email what it held before. *)
Theorem pending_code_persists trace st mail :
  Forall (fun er =>
            (forall m, snd er = PostForgotPassword m -> m <> mail)
            /\ (forall m pw, snd er = PostResetPassword m pw -> m <> mail))
         trace ->
  otpStore (serve trace st) !! mail = otpStore st !! mail.
Proof.
  unfold serve. intros Htrace. revert st.
  induction Htrace as [|[e r] trace [Hf Hr] _ IH]; intros st; [reflexivity|].
  cbn [fold_left fst snd] in *. rewrite IH.
  apply handle_keeps_key; assumption.
Qed.


(** *** After a deletion *)

(** X21: in a reachable state, once [DELETE /:id] has removed an account,
    a login with that account's email is answered like any failed login,
    and [/forgot-password] for it answers "Email not found" and issues
    no code. *)
Theorem deleted_account_is_unknown id i mail pw e st u :
  reachable st -> castObjectId id = Some i -> In u (users st) -> _id u = i ->
  email u = cast_email (trim mail) ->
  isEmail (trim mail) = true -> minlength 5 (trim pw) = true ->
  let st' := snd (delete_user id st) in
  fst (post_login mail pw st') = InvalidCredentials
  /\ post_forgot_password e (trim mail) st'
     = (Render "forgot-password" ["Email not found"%string]
          [("email"%string, Some (trim mail))], st').
Proof.
  intros Hr Hid Hu Hui Hmail Hm Hp st'.
  destruct (reachable_unique_ok st Hr) as (Hnd & _ & Hnm).
  assert (Hnone : User_findOne (by_email (trim mail)) (users st') = None).
  { subst st'. unfold delete_user, User_findByIdAndDelete. rewrite Hid.
    destruct (split_first (by_id i) (users st))
      as [[[before u1] after]|] eqn:Hs.
    - apply split_first_Some in Hs as (Hcoll & Hu1 & _).
      unfold by_id in Hu1. apply String.eqb_eq in Hu1.
      rewrite Hcoll in Hnd, Hnm, Hu.
      apply NoDup_map_remove in Hnd as [_ Hne].
      apply NoDup_map_remove in Hnm as [_ Hnem].
      assert (u = u1) as ->.
      { apply in_app_or in Hu as [Hu | [<- | Hu]]; [exfalso| reflexivity |exfalso].
        - apply (Hne u); [apply in_or_app; left; exact Hu | congruence].
        - apply (Hne u); [apply in_or_app; right; exact Hu | congruence]. }
      cbn [snd users]. apply findOne_none_iff. intros v Hv.
      unfold by_email. apply String.eqb_neq. rewrite <- Hmail.
      exact (Hnem v Hv).
    - exfalso. pose proof (split_first_None _ _ Hs u Hu) as Hf.
      unfold by_id in Hf. rewrite Hui, String.eqb_refl in Hf. discriminate. }
  split.
  - unfold post_login. rewrite Hm, Hp. cbn [check app]. rewrite Hnone.
    reflexivity.
  - unfold post_forgot_password. rewrite Hnone. reflexivity.
Qed.

(** *** One account, two spellings *)

(** X22: [otpStore] is keyed by the email as it is spelled in the
    request, the collection by the email as the schema casts it.  In a
    reachable state, two [/forgot-password] requests that spell the email
    of one account differently leave two codes pending at once, one under
    each spelling. *)
Theorem two_spellings_two_codes e1 e2 mail1 mail2 st u :
  reachable st ->
  User_findOne (by_email mail1) (users st) = Some u ->
  mail2 <> mail1 -> cast_email mail2 = cast_email mail1 ->
  let st2 :=
    snd (post_forgot_password e2 mail2
           (snd (post_forgot_password e1 mail1 st))) in
  pending st2 mail1 (generate_otp (random e1))
  /\ pending st2 mail2 (generate_otp (random e2))
  /\ users st2 = users st.
Proof using Type isEmail_not_inherited.
  intros Hr Hf Hne Hcast st2.
  destruct (reachable_invariant st Hr) as [Hu Ho].
  assert (Hf2 : User_findOne (by_email mail2) (users st) = Some u).
  { rewrite <- Hf. unfold User_findOne. apply find_ext.
    intros v. unfold by_email. rewrite Hcast. reflexivity. }
  pose proof (found_not_inherited _ _ _ Hu Hf) as Hk1.
  pose proof (found_not_inherited _ _ _ Hu Hf2) as Hk2.
  assert (Hst2 : st2 = mkServer (users st)
                         (<[mail2 := generate_otp (random e2)]>
                            (<[mail1 := generate_otp (random e1)]>
                               (otpStore st)))).
  { subst st2. unfold post_forgot_password at 2. rewrite Hf.
    assert (Hst1 : snd (if mail_ok e1
                        then (Render "verify-otp" [] [("email"%string, Some mail1)],
                              mkServer (users st)
                                (Obj.set (otpStore st) mail1
                                   (generate_otp (random e1))))
                        else (Unhandled,
                              mkServer (users st)
                                (Obj.set (otpStore st) mail1
                                   (generate_otp (random e1)))))
                   = mkServer (users st)
                       (<[mail1 := generate_otp (random e1)]> (otpStore st))).
    { rewrite set_own by exact Hk1. destruct (mail_ok e1); reflexivity. }
    rewrite Hst1. unfold post_forgot_password. cbn [users otpStore].
    rewrite Hf2, set_own by exact Hk2. destruct (mail_ok e2); reflexivity. }
  rewrite Hst2. unfold pending. cbn [users otpStore].
  split; [|split; [apply lookup_insert_eq | reflexivity]].
  rewrite lookup_insert_ne by exact Hne. apply lookup_insert_eq.
Qed.

End Routes.

(** ** The handlers on examples *)

Lemma has_at_lower c : Ascii.eqb (Sample.lower c) "@" = Ascii.eqb c "@".
Proof.
  destruct c as [[] [] [] [] [] [] [] []]; reflexivity.
Qed.

Lemma space_not_at c : Sample.is_space c = true -> Ascii.eqb c "@" = false.
Proof.
  destruct c as [[] [] [] [] [] [] [] []]; cbn; intros H;
    first [reflexivity | discriminate H].
Qed.

Lemma has_at_toLowerCase s : Sample.has_at (Sample.toLowerCase s) = Sample.has_at s.
Proof.
  induction s as [|c s IH]; [reflexivity|].
  cbn [Sample.toLowerCase Sample.has_at]. rewrite has_at_lower, IH. reflexivity.
Qed.

Lemma has_at_ltrim s : Sample.has_at (Sample.ltrim s) = Sample.has_at s.
Proof.
  induction s as [|c s IH]; [reflexivity|].
  cbn [Sample.ltrim]. destruct (Sample.is_space c) eqn:Hc; [|reflexivity].
  cbn [Sample.has_at]. rewrite (space_not_at c Hc), IH. reflexivity.
Qed.

Lemma has_at_rtrim s : Sample.has_at (Sample.rtrim s) = Sample.has_at s.
Proof.
  induction s as [|c s IH]; [reflexivity|].
  cbn [Sample.rtrim Sample.has_at].
  destruct (Sample.is_space c) eqn:Hc; cbn [andb].
  - rewrite (space_not_at c Hc). cbn [orb]. rewrite <- IH.
    destruct (String.eqb_spec (Sample.rtrim s) "") as [-> | _];
      [reflexivity|].
    cbn [Sample.has_at]. rewrite (space_not_at c Hc). reflexivity.
  - cbn [Sample.has_at]. rewrite IH. reflexivity.
Qed.

Lemma has_at_cast_email s :
  Sample.has_at (cast_email Sample.trim Sample.toLowerCase s) = Sample.has_at s.
Proof.
  unfold cast_email, Sample.trim.
  rewrite has_at_rtrim, has_at_ltrim, has_at_toLowerCase. reflexivity.
Qed.

(** The hypothesis of the development holds of the sample functions. *)
Lemma sample_isEmail_not_inherited s k :
  Sample.isEmail s = true -> k ∈ Obj.prototype_names ->
  cast_email Sample.trim Sample.toLowerCase s
  <> cast_email Sample.trim Sample.toLowerCase k.
Proof.
  intros Hs Hk Heq.
  assert (Hat : Sample.has_at k = true).
  { rewrite <- has_at_cast_email, <- Heq, has_at_cast_email. exact Hs. }
  unfold Obj.prototype_names in Hk.
  repeat (apply elem_of_cons in Hk as [-> | Hk]; [discriminate Hat|]).
  apply elem_of_nil in Hk. exact Hk.
Qed.

Lemma env1_ok : env_ok Sample.env1.
Proof. apply unit_rangeb_spec. reflexivity. Qed.

Lemma env2_ok : env_ok Sample.env2.
Proof. apply unit_rangeb_spec. reflexivity. Qed.

Lemma registered_reachable :
  reachable Sample.trim Sample.toLowerCase Sample.isEmail Sample.bcrypt_hash
    Sample.bcrypt_compare Sample.castObjectId Sample.registered.
Proof.
  exact (reachable_handle _ _ _ _ _ _ Sample.env1
           (PostRegister " Alice" "Alice@Example.com " "secret1" "5550001111"
              "engineer")
           initial (reachable_initial _ _ _ _ _ _) env1_ok).
Qed.

Lemma requested_reachable :
  reachable Sample.trim Sample.toLowerCase Sample.isEmail Sample.bcrypt_hash
    Sample.bcrypt_compare Sample.castObjectId Sample.requested.
Proof.
  exact (reachable_handle _ _ _ _ _ _ Sample.env1
           (PostForgotPassword "alice@example.com")
           Sample.registered registered_reachable env1_ok).
Qed.

(** The double arithmetic of line 203 agrees with [SpecFloat] on the
    sample draws, among them the largest double below 1. *)
Example line_203_agrees_with_SpecFloat :
  forallb (fun r => same_value (line_203 r) (line_203_spec r)) sample_draws = true.
Proof. vm_compute. reflexivity. Qed.

Example line_203_agrees_on_more_draws :
  forallb (fun r => Double.unit_rangeb r && same_value (line_203 r) (line_203_spec r))
    (random_draws 1500 12345 ++ top_draws 500) = true.
Proof. vm_compute. reflexivity. Qed.

Example generate_otp_samples :
  List.map generate_otp sample_draws
  = [ "100000"; "550000"; "775000"; "100000"; "999999"; "550000"; "550000";
      "100000"; "700000"; "100000" ]%string.
Proof. vm_compute. reflexivity. Qed.

Lemma generate_otp_six_digits_witness :
  Double.unit_range (Double.mk 1 (-1))
  /\ (String.length (generate_otp (Double.mk 1 (-1))) = 6%nat
      /\ all_digits (generate_otp (Double.mk 1 (-1))) = true
      /\ 100000 <= decimal_value 0 (generate_otp (Double.mk 1 (-1))) <= 999999).
Proof.
  split; [apply unit_rangeb_spec; reflexivity|].
  apply generate_otp_six_digits. apply unit_rangeb_spec. reflexivity.
Defined.

(** What the handlers answer Alice. *)
Example verify_otp_wrong_code :
  fst (post_verify_otp (Some "alice@example.com") (Some "000000") Sample.requested)
  = InvalidCode (Some "alice@example.com"%string).
Proof. vm_compute. reflexivity. Qed.

Example verify_otp_right_code :
  fst (post_verify_otp (Some "alice@example.com") (Some "550000") Sample.requested)
  = VerifyOk (Some "alice@example.com"%string).
Proof. vm_compute. reflexivity. Qed.

Lemma reset_password_ignores_verification_witness :
  let mail := "alice@example.com"%string in
  let trace := [ (Sample.env2, PostVerifyOtp (Some mail) (Some "000000"%string));
                 (Sample.env2, PostVerifyOtp (Some mail) None) ] in
  reachable Sample.trim Sample.toLowerCase Sample.isEmail Sample.bcrypt_hash
    Sample.bcrypt_compare Sample.castObjectId Sample.requested
  /\ pending Sample.requested mail "550000"
  /\ forallb (fun er => is_verify_otp (snd er)) trace = true
  /\ post_reset_password Sample.trim Sample.toLowerCase Sample.bcrypt_hash
       Sample.env2 mail "newsecret"
       (serve Sample.trim Sample.toLowerCase Sample.isEmail Sample.bcrypt_hash
          Sample.bcrypt_compare Sample.castObjectId trace Sample.requested)
     = (Redirect "/users/login",
        mkServer
          (User_updateOne_password Sample.trim Sample.toLowerCase Sample.env2
             mail (Sample.bcrypt_hash (salt Sample.env2) "newsecret")
             (users Sample.requested))
          (base.delete mail (otpStore Sample.requested))).
Proof.
  intros mail trace.
  assert (Hp : pending Sample.requested mail "550000") by apply lookup_insert_eq.
  split; [exact requested_reachable|]. split; [exact Hp|].
  split; [reflexivity|].
  exact (reset_password_ignores_verification _ _ _ _ _ _
           sample_isEmail_not_inherited Sample.env2 mail "newsecret" "550000"
           trace Sample.requested requested_reachable Hp eq_refl).
Defined.

Lemma forgot_password_stores_before_sending_witness :
  let mail := "alice@example.com"%string in
  reachable Sample.trim Sample.toLowerCase Sample.isEmail Sample.bcrypt_hash
    Sample.bcrypt_compare Sample.castObjectId Sample.registered
  /\ User_findOne (by_email Sample.trim Sample.toLowerCase mail)
       (users Sample.registered) = Some Sample.alice
  /\ pending
       (snd (post_forgot_password Sample.trim Sample.toLowerCase Sample.env2
               mail Sample.registered))
       mail (generate_otp (random Sample.env2))
  /\ (mail_ok Sample.env2 = false ->
      post_forgot_password Sample.trim Sample.toLowerCase Sample.env2 mail
        Sample.registered
      = (Unhandled,
         mkServer (users Sample.registered)
           (<[mail := generate_otp (random Sample.env2)]>
              (otpStore Sample.registered)))).
Proof.
  intros mail.
  split; [exact registered_reachable|]. split; [reflexivity|].
  exact (forgot_password_stores_before_sending _ _ _ _ _ _
           sample_isEmail_not_inherited Sample.env2 mail Sample.registered
           Sample.alice registered_reachable eq_refl).
Defined.

Lemma second_otp_replaces_first_witness :
  let mail := "alice@example.com"%string in
  let st2 :=
    snd (post_forgot_password Sample.trim Sample.toLowerCase Sample.env2 mail
           (snd (post_forgot_password Sample.trim Sample.toLowerCase
                   Sample.env1 mail Sample.registered))) in
  let c1 := generate_otp (random Sample.env1) in
  let c2 := generate_otp (random Sample.env2) in
  reachable Sample.trim Sample.toLowerCase Sample.isEmail Sample.bcrypt_hash
    Sample.bcrypt_compare Sample.castObjectId Sample.registered
  /\ User_findOne (by_email Sample.trim Sample.toLowerCase mail)
       (users Sample.registered) = Some Sample.alice
  /\ (forall code, pending st2 mail code <-> code = c2)
  /\ (forall code,
        fst (post_verify_otp (Some mail) (Some code) st2) = VerifyOk (Some mail)
        <-> code = c2)
  /\ (c1 <> c2 ->
      fst (post_verify_otp (Some mail) (Some c1) st2) = InvalidCode (Some mail)).
Proof.
  intros mail st2 c1 c2.
  split; [exact registered_reachable|]. split; [reflexivity|].
  exact (second_otp_replaces_first _ _ _ _ _ _ sample_isEmail_not_inherited
           Sample.env1 Sample.env2 mail Sample.registered Sample.alice
           registered_reachable eq_refl).
Defined.

(** C2 as stated fails when the two draws give the same code: the first
    code issued is then accepted, not answered "Invalid OTP". *)
Lemma second_otp_same_draw :
  let mail := "alice@example.com"%string in
  let st2 :=
    snd (post_forgot_password Sample.trim Sample.toLowerCase Sample.env1 mail
           (snd (post_forgot_password Sample.trim Sample.toLowerCase
                   Sample.env1 mail Sample.registered))) in
  let c1 := generate_otp (random Sample.env1) in
  reachable Sample.trim Sample.toLowerCase Sample.isEmail Sample.bcrypt_hash
    Sample.bcrypt_compare Sample.castObjectId Sample.registered
  /\ User_findOne (by_email Sample.trim Sample.toLowerCase mail)
       (users Sample.registered) = Some Sample.alice
  /\ fst (post_verify_otp (Some mail) (Some c1) st2) = VerifyOk (Some mail)
  /\ fst (post_verify_otp (Some mail) (Some c1) st2) <> InvalidCode (Some mail).
Proof.
  intros mail st2 c1.
  split; [exact registered_reachable|]. split; [reflexivity|].
  assert (H : fst (post_verify_otp (Some mail) (Some c1) st2) = VerifyOk (Some mail))
    by (vm_compute; reflexivity).
  split; [exact H|]. rewrite H. discriminate.
Qed.

Lemma login_failures_identical_witness :
  let mail1 := "bob@example.com"%string in
  let mail2 := " Alice@example.com"%string in
  let pw1 := "secret1"%string in
  let pw2 := "wrongpw"%string in
  Sample.isEmail (Sample.trim mail1) = true
  /\ minlength 5 (Sample.trim pw1) = true
  /\ Sample.isEmail (Sample.trim mail2) = true
  /\ minlength 5 (Sample.trim pw2) = true
  /\ User_findOne (by_email Sample.trim Sample.toLowerCase (Sample.trim mail1))
       (users Sample.registered) = None
  /\ User_findOne (by_email Sample.trim Sample.toLowerCase (Sample.trim mail2))
       (users Sample.registered) = Some Sample.alice
  /\ Sample.bcrypt_compare (Sample.trim pw2) (password Sample.alice) = false
  /\ (fst (post_login Sample.trim Sample.toLowerCase Sample.isEmail
             Sample.bcrypt_compare mail1 pw1 Sample.registered)
      = fst (post_login Sample.trim Sample.toLowerCase Sample.isEmail
               Sample.bcrypt_compare mail2 pw2 Sample.registered)
      /\ fst (post_login Sample.trim Sample.toLowerCase Sample.isEmail
                Sample.bcrypt_compare mail1 pw1 Sample.registered)
         = InvalidCredentials).
Proof.
  intros mail1 mail2 pw1 pw2.
  do 7 (split; [reflexivity|]).
  exact (login_failures_identical Sample.trim Sample.toLowerCase Sample.isEmail
           Sample.bcrypt_compare mail1 pw1 Sample.registered mail2 pw2
           Sample.registered Sample.alice eq_refl eq_refl eq_refl eq_refl
           eq_refl eq_refl eq_refl).
Defined.

(** With the right password the same request is answered 200. *)
Example login_alice :
  fst (post_login Sample.trim Sample.toLowerCase Sample.isEmail
         Sample.bcrypt_compare " Alice@example.com" "secret1" Sample.registered)
  = Json 200 (Message "Login successful").
Proof. vm_compute. reflexivity. Qed.

Lemma create_duplicate_key_witness :
  let hash := "$2b$10$ABCDEFGHIJKLMNOPQRSTUVsecret2"%string in
  In Sample.alice [Sample.alice]
  /\ (email Sample.alice
      = cast_email Sample.trim Sample.toLowerCase " ALICE@example.com"
      \/ username Sample.alice
         = cast_username Sample.trim Sample.toLowerCase "alicia")
  /\ User_create Sample.trim Sample.toLowerCase Sample.env2 "alicia"
       " ALICE@example.com" hash "5550002222" "farmer" [Sample.alice]
     = inl (if validate
                 (new_user Sample.trim Sample.toLowerCase Sample.env2 "alicia"
                    " ALICE@example.com" hash "5550002222" "farmer")
            then DuplicateKey else ValidationError).
Proof.
  intros hash.
  split; [left; reflexivity|]. split; [left; reflexivity|].
  exact (create_duplicate_key Sample.trim Sample.toLowerCase Sample.env2
           "alicia" " ALICE@example.com" hash "5550002222" "farmer"
           [Sample.alice] Sample.alice (or_introl eq_refl) (or_introl eq_refl)).
Defined.

(** C5 as stated fails on the phone: the store takes a second document
    with a phone number it already holds, since the schema puts no unique
    index on [phone].  And a document that repeats an email but does not
    pass the validators is refused with ValidationError, not
    DuplicateKey. *)
Lemma create_duplicate_phone :
  let hash := "$2b$10$ABCDEFGHIJKLMNOPQRSTUVsecret2"%string in
  let bob :=
    mkUser "65a1b2c3d4e5f60718293a4c" "bob" "bob@example.com" hash
      "5550001111" "farmer" 2000 2000 0 in
  In Sample.alice [Sample.alice]
  /\ phone Sample.alice = cast_phone Sample.trim "5550001111"
  /\ User_create Sample.trim Sample.toLowerCase Sample.env2 "bob"
       "bob@example.com" hash "5550001111" "farmer" [Sample.alice]
     = inr [Sample.alice; bob]
  /\ User_create Sample.trim Sample.toLowerCase Sample.env2 "bob"
       "bob@example.com" hash "5550001111" "farmer" [Sample.alice]
     <> inl DuplicateKey
  /\ User_create Sample.trim Sample.toLowerCase Sample.env2 "al"
       "alice@example.com" hash "5550002222" "farmer" [Sample.alice]
     = inl ValidationError.
Proof.
  intros hash bob.
  split; [left; reflexivity|]. split; [reflexivity|].
  split; [vm_compute; reflexivity|].
  split; [vm_compute; discriminate|]. vm_compute; reflexivity.
Qed.

(** C9 as stated fails on [updatedAt]: the schema has [timestamps: true],
    so the update, made at time 2000, also moves that field of Alice's
    document, created at time 1000. *)
Lemma put_user_refreshes_updatedAt :
  let st' :=
    snd (put_user Sample.trim Sample.toLowerCase Sample.castObjectId
           Sample.env2 "65a1b2c3d4e5f60718293a4b" "Alice B" "5550003333"
           "architect" Sample.registered) in
  users st'
  = [ mkUser "65a1b2c3d4e5f60718293a4b" "alice b" "alice@example.com"
        "$2b$10$abcdefghijklmnopqrstuvsecret1" "5550003333" "architect"
        1000 2000 0 ]
  /\ ~ Forall2 same_but_profile (users Sample.registered) (users st').
Proof.
  intros st'.
  assert (H : users st'
              = [ mkUser "65a1b2c3d4e5f60718293a4b" "alice b" "alice@example.com"
                    "$2b$10$abcdefghijklmnopqrstuvsecret1" "5550003333"
                    "architect" 1000 2000 0 ]) by (vm_compute; reflexivity).
  split; [exact H|]. rewrite H. intros HF.
  apply Forall2_cons_iff in HF as [(_ & _ & _ & _ & Hstamp & _) _].
  discriminate Hstamp.
Qed.

(** C1 on an example: nothing is pending, and the reset goes through. *)
Example reset_password_constructor :
  post_reset_password Sample.trim Sample.toLowerCase Sample.bcrypt_hash
    Sample.env1 "constructor" "hunter22" initial
  = (Redirect "/users/login", initial).
Proof. vm_compute. reflexivity. Qed.

(** ** More examples *)

Local Abbreviation reachable_sample :=
  (reachable Sample.trim Sample.toLowerCase Sample.isEmail Sample.bcrypt_hash
     Sample.bcrypt_compare Sample.castObjectId).
Local Abbreviation handle_sample :=
  (handle Sample.trim Sample.toLowerCase Sample.isEmail Sample.bcrypt_hash
     Sample.bcrypt_compare Sample.castObjectId).
Local Abbreviation serve_sample :=
  (serve Sample.trim Sample.toLowerCase Sample.isEmail Sample.bcrypt_hash
     Sample.bcrypt_compare Sample.castObjectId).
Local Abbreviation register_sample :=
  (post_register Sample.trim Sample.toLowerCase Sample.isEmail
     Sample.bcrypt_hash).
Local Abbreviation reset_sample :=
  (post_reset_password Sample.trim Sample.toLowerCase Sample.bcrypt_hash).
Local Abbreviation put_sample :=
  (put_user Sample.trim Sample.toLowerCase Sample.castObjectId).
Local Abbreviation delete_sample := (delete_user Sample.castObjectId).

Lemma two_users_reachable : reachable_sample Scenario.two_users.
Proof.
  exact (reachable_handle _ _ _ _ _ _ Sample.env2
           (PostRegister "Bob " "bob@example.com" "secret2" "5550002222"
              "farmer")
           Sample.registered registered_reachable env2_ok).
Qed.

Lemma orphaned_reachable : reachable_sample Scenario.orphaned.
Proof.
  exact (reachable_handle _ _ _ _ _ _ Sample.env2
           (DeleteUser "65A1B2C3D4E5F60718293A4B")
           Sample.requested requested_reachable env2_ok).
Qed.

Lemma reachable_unique_witness :
  reachable_sample Scenario.two_users
  /\ (NoDup (List.map _id (users Scenario.two_users))
      /\ NoDup (List.map username (users Scenario.two_users))
      /\ NoDup (List.map email (users Scenario.two_users))).
Proof.
  split; [exact two_users_reachable|].
  exact (reachable_unique _ _ _ _ _ _ Scenario.two_users two_users_reachable).
Defined.

Lemma reachable_passwords_hashed_witness :
  reachable_sample Scenario.two_users
  /\ In Scenario.bob (users Scenario.two_users)
  /\ exists s pw,
       password Scenario.bob
       = cast_password Sample.trim (Sample.bcrypt_hash s pw).
Proof.
  split; [exact two_users_reachable|].
  split; [right; left; reflexivity|].
  exact (reachable_passwords_hashed _ _ _ _ _ _ Scenario.two_users
           Scenario.bob two_users_reachable (or_intror (or_introl eq_refl))).
Defined.

Lemma reachable_pending_six_digits_witness :
  reachable_sample Sample.requested
  /\ pending Sample.requested "alice@example.com" "550000"
  /\ (String.length "550000" = 6%nat /\ all_digits "550000" = true
      /\ 100000 <= decimal_value 0 "550000" <= 999999
      /\ "alice@example.com"%string ∉ Obj.prototype_names).
Proof.
  assert (Hp : pending Sample.requested "alice@example.com" "550000")
    by apply lookup_insert_eq.
  split; [exact requested_reachable|]. split; [exact Hp|].
  exact (reachable_pending_six_digits _ _ _ _ _ _ sample_isEmail_not_inherited
           Sample.requested "alice@example.com" "550000" requested_reachable
           Hp).
Defined.

Lemma responses_hide_password_witness :
  let doc := select_minus "password" (toObject Scenario.bob) in
  In doc (documents_of (fst (handle_sample Sample.env1 GetUsers Scenario.two_users)))
  /\ In ("email"%string, FString "bob@example.com") doc
  /\ "email"%string <> "password"%string.
Proof.
  intros doc.
  assert (Hd : In doc (documents_of
                         (fst (handle_sample Sample.env1 GetUsers
                                 Scenario.two_users))))
    by (right; left; reflexivity).
  assert (Hk : In ("email"%string, FString "bob@example.com") doc)
    by (right; right; left; reflexivity).
  split; [exact Hd|]. split; [exact Hk|].
  exact (responses_hide_password _ _ _ _ _ _ Sample.env1 GetUsers
           Scenario.two_users doc "email" (FString "bob@example.com") Hd Hk).
Defined.

Lemma handle_keeps_identity_witness :
  let r := PutUser "65a1b2c3d4e5f60718293a4c" "Robert" "5550004444" "baker" in
  let u' :=
    mkUser "65a1b2c3d4e5f60718293a4c" "robert" "bob@example.com"
      "$2b$10$ABCDEFGHIJKLMNOPQRSTUVsecret2" "5550004444" "baker" 2000 1000 0 in
  In u' (users (snd (handle_sample Sample.env1 r Scenario.two_users)))
  /\ ((exists u, In u (users Scenario.two_users) /\ _id u' = _id u
                 /\ email u' = email u /\ createdAt u' = createdAt u)
      \/ (exists uname mail pw ph prof,
            r = PostRegister uname mail pw ph prof
            /\ u' = new_user Sample.trim Sample.toLowerCase Sample.env1
                      (Sample.trim uname) (Sample.trim mail)
                      (Sample.bcrypt_hash (salt Sample.env1) (Sample.trim pw))
                      (Sample.trim ph) (Sample.trim prof))).
Proof.
  intros r u'.
  assert (Hin : In u' (users (snd (handle_sample Sample.env1 r
                                     Scenario.two_users))))
    by (right; left; reflexivity).
  split; [exact Hin|].
  exact (handle_keeps_identity _ _ _ _ _ _ Sample.env1 r Scenario.two_users u'
           Hin).
Defined.

Lemma delete_user_removes_witness :
  let id := "65A1B2C3D4E5F60718293A4B"%string in
  let i := "65a1b2c3d4e5f60718293a4b"%string in
  let st := Scenario.two_users in
  reachable_sample st
  /\ Sample.castObjectId id = Some i
  /\ (exists u, In u (users st) /\ _id u = i)
  /\ (fst (delete_sample id st)
      = Json 200 (Message "User deleted successfully")
      /\ (forall v, In v (users (snd (delete_sample id st)))
                    <-> In v (users st) /\ _id v <> i)
      /\ otpStore (snd (delete_sample id st)) = otpStore st
      /\ fst (delete_sample id (snd (delete_sample id st)))
         = Json 404 (Message "User not found")).
Proof.
  intros id i st.
  assert (Hu : exists u, In u (users st) /\ _id u = i)
    by (exists Sample.alice; split; [left; reflexivity | reflexivity]).
  split; [exact two_users_reachable|]. split; [reflexivity|].
  split; [exact Hu|].
  exact (delete_user_removes _ _ _ _ _ _ id i st two_users_reachable eq_refl Hu).
Defined.

Lemma reset_password_without_user_witness :
  let mail := "alice@example.com"%string in
  reachable_sample Scenario.orphaned
  /\ pending Scenario.orphaned mail "550000"
  /\ User_findOne (by_email Sample.trim Sample.toLowerCase mail)
       (users Scenario.orphaned) = None
  /\ reset_sample Sample.env2 mail "newsecret" Scenario.orphaned
     = (Redirect "/users/login",
        mkServer (users Scenario.orphaned)
          (base.delete mail (otpStore Scenario.orphaned))).
Proof.
  intros mail.
  assert (Hp : pending Scenario.orphaned mail "550000")
    by apply lookup_insert_eq.
  split; [exact orphaned_reachable|]. split; [exact Hp|].
  split; [reflexivity|].
  exact (reset_password_without_user _ _ _ _ _ _ sample_isEmail_not_inherited
           Sample.env2 mail "newsecret" "550000" Scenario.orphaned
           orphaned_reachable Hp eq_refl).
Defined.

Lemma plain_hash_roundtrip s d :
  Scenario.plain_compare d
    (cast_password Sample.trim (Scenario.plain_hash s d)) = true.
Proof. apply String.eqb_refl. Qed.

Lemma register_then_login_witness :
  let register :=
    post_register Sample.trim Sample.toLowerCase Sample.isEmail
      Scenario.plain_hash Sample.env1 "Carol" " Carol@example.com"
      "secret3 " "5550003333" "chemist" initial in
  (forall s d,
     Scenario.plain_compare d
       (cast_password Sample.trim (Scenario.plain_hash s d)) = true)
  /\ fst register = Redirect "/users/login"
  /\ fst (post_login Sample.trim Sample.toLowerCase Sample.isEmail
            Scenario.plain_compare " Carol@example.com" "secret3 "
            (snd register))
     = Json 200 (Message "Login successful").
Proof.
  intros register.
  split; [exact plain_hash_roundtrip|]. split; [reflexivity|].
  exact (register_then_login Sample.trim Sample.toLowerCase Sample.isEmail
           Scenario.plain_hash Scenario.plain_compare Sample.env1 "Carol"
           " Carol@example.com" "secret3 " "5550003333" "chemist" initial
           plain_hash_roundtrip eq_refl).
Defined.

Lemma reset_then_login_witness :
  let mail := "carol@example.com"%string in
  let reset :=
    post_reset_password Sample.trim Sample.toLowerCase Scenario.plain_hash
      Sample.env2 mail "newsecret" Scenario.carol_requested in
  (forall s d,
     Scenario.plain_compare d
       (cast_password Sample.trim (Scenario.plain_hash s d)) = true)
  /\ fst reset = Redirect "/users/login"
  /\ User_findOne (by_email Sample.trim Sample.toLowerCase mail)
       (users Scenario.carol_requested) = Some Scenario.carol
  /\ Sample.isEmail (Sample.trim " Carol@Example.com") = true
  /\ minlength 5 (Sample.trim "newsecret ") = true
  /\ cast_email Sample.trim Sample.toLowerCase (Sample.trim " Carol@Example.com")
     = cast_email Sample.trim Sample.toLowerCase mail
  /\ Sample.trim "newsecret " = "newsecret"%string
  /\ fst (post_login Sample.trim Sample.toLowerCase Sample.isEmail
            Scenario.plain_compare " Carol@Example.com" "newsecret "
            (snd reset))
     = Json 200 (Message "Login successful").
Proof.
  intros mail reset.
  split; [exact plain_hash_roundtrip|].
  do 6 (split; [reflexivity|]).
  exact (reset_then_login Sample.trim Sample.toLowerCase Sample.isEmail
           Scenario.plain_hash Scenario.plain_compare Sample.env2 mail
           "newsecret" " Carol@Example.com" "newsecret "
           Scenario.carol_requested Scenario.carol plain_hash_roundtrip
           eq_refl eq_refl eq_refl eq_refl eq_refl eq_refl).
Defined.

Lemma register_username_taken_witness :
  let st := Sample.registered in
  Sample.isEmail (Sample.trim "al@example.org") = true
  /\ minlength 5 (Sample.trim "secret9") = true
  /\ minlength 3 (Sample.trim " ALICE") = true
  /\ minlength 10 (Sample.trim "5550009999") = true
  /\ nonempty (Sample.trim "pilot") = true
  /\ User_findOne
       (by_email_or_phone Sample.trim Sample.toLowerCase
          (Sample.trim "al@example.org") (Sample.trim "5550009999"))
       (users st) = None
  /\ In Sample.alice (users st)
  /\ username Sample.alice
     = cast_username Sample.trim Sample.toLowerCase (Sample.trim " ALICE")
  /\ exists oldInput,
       register_sample Sample.env2 " ALICE" "al@example.org" "secret9"
         "5550009999" "pilot" st
       = (Render "register" ["Server error, please try again"%string] oldInput,
          st).
Proof.
  intros st.
  do 6 (split; [reflexivity|]). split; [left; reflexivity|].
  split; [reflexivity|].
  exact (register_username_taken Sample.trim Sample.toLowerCase Sample.isEmail
           Sample.bcrypt_hash Sample.env2 " ALICE" "al@example.org" "secret9"
           "5550009999" "pilot" st Sample.alice eq_refl eq_refl eq_refl eq_refl
           eq_refl eq_refl (or_introl eq_refl) eq_refl).
Defined.

Lemma put_user_username_taken_witness :
  let id := "65a1b2c3d4e5f60718293a4c"%string in
  let st := Scenario.two_users in
  reachable_sample st
  /\ Sample.castObjectId id = Some id
  /\ In Scenario.bob (users st)
  /\ _id Scenario.bob = id
  /\ ((fst (put_sample Sample.env1 id " Alice" "5550002222" "farmer" st)
       = Json 500 (Message "Server error")
       <-> exists v, In v (users st) /\ _id v <> id
                     /\ username v
                        = cast_username Sample.trim Sample.toLowerCase " Alice")
      /\ (fst (put_sample Sample.env1 id " Alice" "5550002222" "farmer" st)
          = Json 500 (Message "Server error")
          -> snd (put_sample Sample.env1 id " Alice" "5550002222" "farmer" st)
             = st)).
Proof.
  intros id st.
  split; [exact two_users_reachable|]. split; [reflexivity|].
  split; [right; left; reflexivity|]. split; [reflexivity|].
  exact (put_user_username_taken Sample.trim Sample.toLowerCase
           Sample.isEmail Sample.bcrypt_hash Sample.bcrypt_compare
           Sample.castObjectId Sample.env1 id id " Alice" "5550002222" "farmer"
           st Scenario.bob two_users_reachable eq_refl
           (or_intror (or_introl eq_refl)) eq_refl).
Defined.

(** The rename is indeed refused. *)
Example put_user_rename_to_alice :
  put_sample Sample.env1 "65a1b2c3d4e5f60718293a4c" " Alice" "5550002222"
    "farmer" Scenario.two_users
  = (Json 500 (Message "Server error"), Scenario.two_users).
Proof. vm_compute. reflexivity. Qed.

Lemma used_code_no_longer_verifies_witness :
  let mail := "alice@example.com"%string in
  reachable_sample Sample.requested
  /\ pending Sample.requested mail "550000"
  /\ fst (post_verify_otp (Some mail) (Some "550000"%string)
            (snd (reset_sample Sample.env2 mail "newsecret" Sample.requested)))
     = InvalidCode (Some mail).
Proof.
  intros mail.
  assert (Hp : pending Sample.requested mail "550000")
    by apply lookup_insert_eq.
  split; [exact requested_reachable|]. split; [exact Hp|].
  exact (used_code_no_longer_verifies _ _ _ _ _ _ sample_isEmail_not_inherited
           Sample.env2 mail "newsecret" "550000" "550000" Sample.requested
           requested_reachable Hp).
Defined.

Lemma pending_code_persists_witness :
  let mail := "alice@example.com"%string in
  let trace :=
    [ (Sample.env2, PostLogin mail "secret1");
      (Sample.env2, PostForgotPassword "Alice@example.com");
      (Sample.env2, DeleteUser "65a1b2c3d4e5f60718293a4b") ] in
  Forall (fun er =>
            (forall m, snd er = PostForgotPassword m -> m <> mail)
            /\ (forall m pw, snd er = PostResetPassword m pw -> m <> mail))
         trace
  /\ otpStore (serve_sample trace Sample.requested) !! mail
     = otpStore Sample.requested !! mail.
Proof.
  intros mail trace.
  assert (Ht : Forall (fun er =>
                 (forall m, snd er = PostForgotPassword m -> m <> mail)
                 /\ (forall m pw, snd er = PostResetPassword m pw -> m <> mail))
                 trace).
  { repeat constructor; cbn [snd]; try discriminate.
    intros m [= <-]. discriminate. }
  split; [exact Ht|].
  exact (pending_code_persists Sample.trim Sample.toLowerCase Sample.isEmail
           Sample.bcrypt_hash Sample.bcrypt_compare Sample.castObjectId trace
           Sample.requested mail Ht).
Defined.

Lemma deleted_account_is_unknown_witness :
  let id := "65a1b2c3d4e5f60718293a4c"%string in
  let st := Scenario.two_users in
  let st' := snd (delete_sample id st) in
  reachable_sample st
  /\ Sample.castObjectId id = Some id
  /\ In Scenario.bob (users st)
  /\ _id Scenario.bob = id
  /\ email Scenario.bob
     = cast_email Sample.trim Sample.toLowerCase (Sample.trim "Bob@example.com ")
  /\ Sample.isEmail (Sample.trim "Bob@example.com ") = true
  /\ minlength 5 (Sample.trim "secret2") = true
  /\ (fst (post_login Sample.trim Sample.toLowerCase Sample.isEmail
             Sample.bcrypt_compare "Bob@example.com " "secret2" st')
      = InvalidCredentials
      /\ post_forgot_password Sample.trim Sample.toLowerCase Sample.env1
           (Sample.trim "Bob@example.com ") st'
         = (Render "forgot-password" ["Email not found"%string]
              [("email"%string, Some (Sample.trim "Bob@example.com "))], st')).
Proof.
  intros id st st'.
  split; [exact two_users_reachable|]. split; [reflexivity|].
  split; [right; left; reflexivity|]. do 4 (split; [reflexivity|]).
  exact (deleted_account_is_unknown Sample.trim Sample.toLowerCase
           Sample.isEmail Sample.bcrypt_hash Sample.bcrypt_compare
           Sample.castObjectId id id "Bob@example.com " "secret2" Sample.env1 st
           Scenario.bob two_users_reachable eq_refl
           (or_intror (or_introl eq_refl)) eq_refl eq_refl eq_refl eq_refl).
Defined.

Lemma two_spellings_two_codes_witness :
  let mail1 := "alice@example.com"%string in
  let mail2 := "Alice@Example.com"%string in
  let st2 :=
    snd (post_forgot_password Sample.trim Sample.toLowerCase Sample.env2 mail2
           (snd (post_forgot_password Sample.trim Sample.toLowerCase
                   Sample.env1 mail1 Sample.registered))) in
  reachable_sample Sample.registered
  /\ User_findOne (by_email Sample.trim Sample.toLowerCase mail1)
       (users Sample.registered) = Some Sample.alice
  /\ mail2 <> mail1
  /\ cast_email Sample.trim Sample.toLowerCase mail2
     = cast_email Sample.trim Sample.toLowerCase mail1
  /\ (pending st2 mail1 (generate_otp (random Sample.env1))
      /\ pending st2 mail2 (generate_otp (random Sample.env2))
      /\ users st2 = users Sample.registered).
Proof.
  intros mail1 mail2 st2.
  assert (Hne : mail2 <> mail1) by discriminate.
  split; [exact registered_reachable|]. split; [reflexivity|].
  split; [exact Hne|]. split; [reflexivity|].
  exact (two_spellings_two_codes _ _ _ _ _ _ sample_isEmail_not_inherited
           Sample.env1 Sample.env2 mail1 mail2 Sample.registered Sample.alice
           registered_reachable eq_refl Hne eq_refl).
Defined.

(** Both codes open the reset form, each under its own spelling. *)
Example two_spellings_both_verify :
  let st2 :=
    snd (post_forgot_password Sample.trim Sample.toLowerCase Sample.env2
           "Alice@Example.com"
           (snd (post_forgot_password Sample.trim Sample.toLowerCase
                   Sample.env1 "alice@example.com" Sample.registered))) in
  fst (post_verify_otp (Some "alice@example.com") (Some "550000") st2)
  = VerifyOk (Some "alice@example.com"%string)
  /\ fst (post_verify_otp (Some "Alice@Example.com") (Some "325000") st2)
     = VerifyOk (Some "Alice@Example.com"%string).
Proof. vm_compute. split; reflexivity. Qed.
